(** * pypoker: the one-participant protocol adapter [PlayerServer]

    A shallow embedding of [poker/player_server.py] and the properties of
    its deal notification, discard exchange, betting turn and keep-alive.

    Layout:
    - the Python values the messages carry, and in [Py] the built-ins the
      adapter relies on ([float], [set], [sorted], indexing);
    - the collaborators that live outside [player_server.py]
      (channel, participant record, [validate_msg_id]);
    - the adapter's operations, method by method;
    - the properties. *)

From Stdlib Require Import ZArith Lia Ascii String.
From Stdlib Require Import Floats.SpecFloat.
From stdpp Require Import base option list sorting strings gmap pretty.

#[local] Set Warnings "-register-all".
#[local] Set Default Proof Using "Type".

(** ** Exceptions and results *)

Inductive exn :=
| MessageFormatError (attribute desc : string)
| ChannelError
| MessageTimeout
| TypeError
| IndexError
| ValueError
| OverflowError
| AttributeError (name : string).

(** The result of evaluating a Python expression without side effects. *)
Inductive res (A : Type) :=
| Ok (a : A)
| Err (e : exn).
Arguments Ok {A} a.
Arguments Err {A} e.

#[global] Instance res_ret : MRet res := fun _ a => Ok a.
#[global] Instance res_bind : MBind res := fun _ _ f r =>
  match r with Ok a => f a | Err e => Err e end.

(** [try: body except (classes): handler], on pure code. *)
Definition try_except {A} (body : res A) (catches : exn -> bool)
    (handler : res A) : res A :=
  match body with
  | Ok a => Ok a
  | Err e => if catches e then handler else Err e
  end.

(** ** Numbers

    A Python number is an [int] (unbounded) or a [float] (binary64, here the
    Standard Library's [spec_float]).  Python compares numbers of either
    type by their exact mathematical value; a NaN is unordered. *)

Inductive pynum :=
| PInt (z : Z)
| PFloat (f : spec_float).

(** Exact value of a number: [XFin m e] stands for [m * 2^e]. *)
Inductive xreal :=
| XNan
| XNegInf
| XFin (m e : Z)
| XPosInf.

Definition float_x (f : spec_float) : xreal :=
  match f with
  | S754_zero _ => XFin 0 0
  | S754_infinity s => if s then XNegInf else XPosInf
  | S754_nan => XNan
  | S754_finite s m e => XFin (if s then Z.neg m else Z.pos m) e
  end.

Definition num_x (n : pynum) : xreal :=
  match n with
  | PInt z => XFin z 0
  | PFloat f => float_x f
  end.

Definition fin_compare (m1 e1 m2 e2 : Z) : comparison :=
  let e := Z.min e1 e2 in
  (m1 * 2 ^ (e1 - e) ?= m2 * 2 ^ (e2 - e))%Z.

Definition x_compare (a b : xreal) : option comparison :=
  match a, b with
  | XNan, _ | _, XNan => None
  | XNegInf, XNegInf => Some Eq
  | XNegInf, _ => Some Lt
  | _, XNegInf => Some Gt
  | XPosInf, XPosInf => Some Eq
  | XPosInf, _ => Some Gt
  | _, XPosInf => Some Lt
  | XFin m1 e1, XFin m2 e2 => Some (fin_compare m1 e1 m2 e2)
  end.

Definition num_compare (a b : pynum) : option comparison :=
  x_compare (num_x a) (num_x b).

(** [a == b], [a < b], [a > b], [a <= b] *)
Definition num_eqb (a b : pynum) : bool :=
  match num_compare a b with Some Eq => true | _ => false end.
Definition num_ltb (a b : pynum) : bool :=
  match num_compare a b with Some Lt => true | _ => false end.
Definition num_gtb (a b : pynum) : bool :=
  match num_compare a b with Some Gt => true | _ => false end.
Definition num_leb (a b : pynum) : bool :=
  match num_compare a b with Some Lt | Some Eq => true | _ => false end.

(** ** Values carried by messages (what a JSON document decodes to) *)

Inductive value :=
| VNone
| VBool (b : bool)
| VNum (n : pynum)
| VStr (s : string)
| VList (l : list value)
| VDict (d : gmap string value).

Definition VInt (z : Z) : value := VNum (PInt z).
Definition VFloat (f : spec_float) : value := VNum (PFloat f).

(** [bool] is a subclass of [int]: [True] is 1 and [False] is 0. *)
Definition as_num (v : value) : option pynum :=
  match v with
  | VBool b => Some (PInt (if b then 1 else 0))
  | VNum n => Some n
  | _ => None
  end.

(** [operator.index]: the values a sequence accepts as a subscript. *)
Definition as_index (v : value) : option Z :=
  match v with
  | VBool b => Some (if b then 1 else 0)%Z
  | VNum (PInt z) => Some z
  | _ => None
  end.

Definition binary64_of_Z (z : Z) : spec_float := binary_normalize 53 1024 z 0 false.

(** [float] of an [int] rounds to nearest and refuses what would overflow. *)
Definition float_of_int (z : Z) : res spec_float :=
  match binary64_of_Z z with
  | S754_infinity _ => Err OverflowError
  | f => Ok f
  end.

Definition is_index (v : value) : Prop := is_Some (as_index v).

(** The index a value stands for (0 for a value that is no index). *)
Definition index_of (v : value) : Z := default 0%Z (as_index v).

(** ** Python built-ins *)

Module Py.

(** *** [float(x)] *)

Section Float.
(** Python's parser of float literals ([None]: the text is no number). *)
Variable float_of_string : string -> option spec_float.

Definition float (v : value) : res spec_float :=
  match v with
  | VNum (PFloat f) => Ok f
  | VNum (PInt z) => float_of_int z
  | VBool b => float_of_int (if b then 1 else 0)
  | VStr s =>
      match float_of_string s with
      | Some f => Ok f
      | None => Err ValueError
      end
  | VNone | VList _ | VDict _ => Err TypeError
  end.
End Float.

(** *** [set(x)] and [sorted(x)] *)

(** Iterating a value: a list yields its elements, a string its characters
    (here its bytes), a dict its keys; anything else is not iterable. *)
Definition iter (v : value) : res (list value) :=
  match v with
  | VList l => Ok l
  | VStr s => Ok ((fun c => VStr (String c EmptyString)) <$> String.list_ascii_of_string s)
  | VDict d => Ok ((fun kv => VStr kv.1) <$> map_to_list d)
  | VNone | VBool _ | VNum _ => Err TypeError
  end.

Definition hashable (v : value) : bool :=
  match v with
  | VList _ | VDict _ => false
  | _ => true
  end.

(** [a == b] on hashable values: numbers (and booleans) by value, strings
    by content, [None] with itself; values of different kinds differ. *)
Definition eqb (a b : value) : bool :=
  match as_num a, as_num b with
  | Some x, Some y => num_eqb x y
  | _, _ =>
      match a, b with
      | VStr s, VStr t => bool_decide (s = t)
      | VNone, VNone => true
      | _, _ => false
      end
  end.

(** [a < b]: [None] when the operands cannot be ordered (Python 3 raises
    [TypeError] between a number and a string, and on [None]). *)
Definition ltb (a b : value) : option bool :=
  match as_num a, as_num b with
  | Some x, Some y => Some (num_ltb x y)
  | _, _ =>
      match a, b with
      | VStr s, VStr t => Some (String.ltb s t)
      | _, _ => None
      end
  end.

(** Elements enter a set one by one; an element equal to one already in
    the set is dropped, so the first of several equal elements is kept. *)
Definition set_add (acc : list value) (v : value) : res (list value) :=
  if hashable v then
    Ok (if existsb (eqb v) acc then acc else acc ++ [v])
  else Err TypeError.

Fixpoint set_from (acc : list value) (l : list value) : res (list value) :=
  match l with
  | [] => Ok acc
  | v :: l' => acc' ← set_add acc v; set_from acc' l'
  end.

Definition set (v : value) : res (list value) :=
  l ← iter v; set_from [] l.

(** Sorting uses [<] only and is stable; it fails as soon as two of the
    elements cannot be ordered.  The keys of a set come in no fixed order,
    which sorting makes immaterial. *)
Fixpoint insert (x : value) (l : list value) : res (list value) :=
  match l with
  | [] => Ok [x]
  | y :: l' =>
      match ltb y x with
      | None => Err TypeError
      | Some true => s ← insert x l'; Ok (y :: s)
      | Some false => Ok (x :: y :: l')
      end
  end.

Fixpoint sorted (l : list value) : res (list value) :=
  match l with
  | [] => Ok []
  | x :: l' => s ← sorted l'; insert x s
  end.

(** *** [seq[key]] on a list *)

Definition getitem {A} (seq : list A) (key : value) : res A :=
  match as_index key with
  | None => Err TypeError
  | Some k =>
      let n := Z.of_nat (length seq) in
      let i := if (k <? 0)%Z then (k + n)%Z else k in
      if ((0 <=? i) && (i <? n))%Z then
        match seq !! Z.to_nat i with
        | Some a => Ok a
        | None => Err IndexError
        end
      else Err IndexError
  end.

(** [[f(x) for x in l]]: the first failure ends the comprehension. *)
Fixpoint comprehension {A B} (f : A -> res B) (l : list A) : res (list B) :=
  match l with
  | [] => Ok []
  | x :: l' => y ← f x; ys ← comprehension f l'; Ok (y :: ys)
  end.

End Py.

Abbreviation message := (gmap string value).

(** ** The channel (external collaborator) *)

(** What a receive can meet: a message, the deadline elapsing, or a
    transport failure. *)
Inductive event :=
| EvMessage (m : message)
| EvTimeout
| EvError.

Record Channel := {
  inbox : list event;           (* what the coming receives will meet *)
  outbox : list message;        (* messages sent so far, oldest first *)
  send_fails : bool;            (* the transport refuses to send *)
  close_fails : bool;           (* [close] raises *)
  deadlines : list (option Z);  (* the deadline given to each receive so far *)
  close_calls : nat             (* how many times [close] was called *)
}.

(** The effect of an operation of the adapter: it returns, raises, or
    waits for ever on a channel that stays silent without a deadline. *)
Inductive outcome (A : Type) :=
| Ret (a : A)
| Raise (e : exn)
| Block.
Arguments Ret {A} a.
Arguments Raise {A} e.
Arguments Block {A}.

Module Channel.

(** Modelled from the spec: the channel's [send(message)], which
    "transmits one message; fails with ChannelError on transport failure". *)
Definition send_message (m : message) (ch : Channel) : outcome unit * Channel :=
  if send_fails ch then (Raise ChannelError, ch)
  else (Ret tt,
        {| inbox := inbox ch; outbox := outbox ch ++ [m];
           send_fails := send_fails ch; close_fails := close_fails ch;
           deadlines := deadlines ch; close_calls := close_calls ch |}).

(** Modelled from the spec: the channel's [receive(deadline)], which "blocks
    until one message arrives or the deadline elapses; fails with
    MessageTimeout on expiry, ChannelError on transport failure".  An empty
    [inbox] is a participant who stays silent. *)
Definition recv_message (timeout : option Z) (ch : Channel) : outcome message * Channel :=
  let after rest :=
    {| inbox := rest; outbox := outbox ch;
       send_fails := send_fails ch; close_fails := close_fails ch;
       deadlines := deadlines ch ++ [timeout]; close_calls := close_calls ch |} in
  match inbox ch with
  | [] => (match timeout with Some _ => Raise MessageTimeout | None => Block end, after [])
  | EvMessage m :: rest => (Ret m, after rest)
  | EvTimeout :: rest => (Raise MessageTimeout, after rest)
  | EvError :: rest => (Raise ChannelError, after rest)
  end.

(** Modelled from the spec: the channel's [close()], which "releases
    transport resources"; it may fail. *)
Definition close (ch : Channel) : outcome unit * Channel :=
  (if close_fails ch then Raise ChannelError else Ret tt,
   {| inbox := inbox ch; outbox := outbox ch;
      send_fails := send_fails ch; close_fails := close_fails ch;
      deadlines := deadlines ch; close_calls := S (close_calls ch) |}).

End Channel.

(** Modelled from the spec: [MessageFormatError.validate_msg_id], declared
    outside [player_server.py]: the message "must carry [msg_id]" and it
    "must equal" the expected identifier, "else fails with MessageFormatError
    identifying the mismatch". *)
Definition validate_msg_id (m : message) (expected : string) : res unit :=
  match m !! "msg_id" with
  | None => Err (MessageFormatError "msg_id" "Attribute missing")
  | Some id =>
      if Py.eqb id (VStr expected) then Ok tt
      else Err (MessageFormatError "msg_id" ("Unexpected message, expected " +:+ expected))
  end.

(** [message.name] on a dict: a dict has no attribute named after its keys. *)
Definition dict_getattr (m : message) (name : string) : res value :=
  Err (AttributeError name).

(** ** Concrete collaborators

    Small stand-ins for what Python and the rest of the package provide,
    on which the properties below are exercised. *)

Module Demo.

Fixpoint digits (acc : Z) (s : string) : option Z :=
  match s with
  | EmptyString => Some acc
  | String c s' =>
      let d := Z.of_nat (Ascii.nat_of_ascii c) in
      if ((48 <=? d) && (d <=? 57))%Z then digits (10 * acc + (d - 48)) s' else None
  end.

(** The plain decimal integers among Python's float literals: an optional
    minus sign, then digits.  Any other text is taken as no number. *)
Definition float_of_string (s : string) : option spec_float :=
  match s with
  | EmptyString => None
  | String "-"%char EmptyString => None
  | String "-"%char s' => (fun z => SFopp (binary64_of_Z z)) <$> digits 0 s'
  | _ => binary64_of_Z <$> digits 0 s
  end.

(** The integral value of a float, when it has one. *)
Definition integral (f : spec_float) : option Z :=
  match f with
  | S754_zero _ => Some 0%Z
  | S754_finite s m e =>
      let v := if s then Z.neg m else Z.pos m in
      if (0 <=? e)%Z then Some (v * 2 ^ e)%Z
      else if (v mod 2 ^ (- e) =? 0)%Z then Some (v / 2 ^ (- e))%Z
      else None
  | _ => None
  end.

(** How [str.format] renders integers, floats of integral value and
    strings; other values are not rendered. *)
Definition format (v : value) : string :=
  match v with
  | VNum (PInt z) => pretty z
  | VNum (PFloat f) =>
      match integral f with
      | Some z => pretty z +:+ ".0"
      | None => ""
      end
  | VStr s => s
  | _ => ""
  end.

(** A timestamp rendered as its count of seconds. *)
Definition strftime (t : Z) : string := pretty t.

(** Cards by name, serialized as their name. *)
Inductive card := A | B | C | D | E.

Definition card_dto (c : card) : value :=
  VStr match c with A => "A" | B => "B" | C => "C" | D => "D" | E => "E" end.

(** Scores as integers, higher is stronger. *)
Definition score_dto (s : Z) : value := VInt s.

(** A channel on which nothing was exchanged yet and whose transport works. *)
Definition channel (incoming : list event) : Channel :=
  {| inbox := incoming; outbox := []; send_fails := false; close_fails := false;
     deadlines := []; close_calls := 0 |}.

Definition msg (fields : list (string * value)) : message := list_to_map fields.

End Demo.

(** [-1.0] *)
Definition minus_one : spec_float := S754_finite true 4503599627370496 (-52).

(** ** The adapter *)

Section Adapter.
Context {Card Score : Type}.
Variable card_dto : Card -> value.                         (* [Card.dto] *)
Variable score_dto : Score -> value.                       (* [Score.dto] *)
Variable cmp : Score -> Score -> Z.                        (* [Score.cmp] *)
Variable float_of_string : string -> option spec_float.    (* [float] on text *)
Variable format : value -> string.                         (* ["{}".format(x)] *)
Variable strftime : Z -> string.  (* [time.strftime("%Y-%m-%d %H:%M:%S+0000", time.gmtime(t))] *)

(** The participant record ([Player]) together with what [PlayerServer]
    adds to it. *)
Record PlayerServer := {
  _id : value;
  _name : value;
  _money : value;
  _cards : list Card;
  _score : option Score;
  _channel : Channel;
  _allowed_to_open : option bool;
  _logger : list exn            (* what was passed to [logger.error] *)
}.

(** [PlayerServer(channel, id, name, money)]: no hand and no score yet. *)
Definition init (channel : Channel) (id name money : value) : PlayerServer :=
  {| _id := id; _name := name; _money := money; _cards := []; _score := None;
     _channel := channel; _allowed_to_open := None; _logger := [] |}.

Definition M (A : Type) : Type := PlayerServer -> outcome A * PlayerServer.

#[local] Instance M_ret : MRet M := fun _ a s => (Ret a, s).
#[local] Instance M_bind : MBind M := fun _ _ f m s =>
  match m s with
  | (Ret a, s') => f a s'
  | (Raise e, s') => (Raise e, s')
  | (Block, s') => (Block, s')
  end.

Definition raise {A} (e : exn) : M A := fun s => (Raise e, s).

Definition outcome_of {A} (r : res A) : outcome A :=
  match r with Ok a => Ret a | Err e => Raise e end.

Definition lift {A} (r : res A) : M A := fun s => (outcome_of r, s).

(** [try: body except (classes) as e: handler] *)
Definition try_catch {A} (body : M A) (catches : exn -> bool)
    (handler : exn -> M A) : M A := fun s =>
  match body s with
  | (Raise e, s') => if catches e then handler e s' else (Raise e, s')
  | r => r
  end.

Definition with_channel (ch : Channel) (s : PlayerServer) : PlayerServer :=
  {| _id := _id s; _name := _name s; _money := _money s; _cards := _cards s;
     _score := _score s; _channel := ch;
     _allowed_to_open := _allowed_to_open s; _logger := _logger s |}.

Definition on_channel {A} (f : Channel -> outcome A * Channel) : M A := fun s =>
  let '(r, ch) := f (_channel s) in (r, with_channel ch s).

Definition logger_error (e : exn) : M unit := fun s =>
  (Ret tt,
   {| _id := _id s; _name := _name s; _money := _money s; _cards := _cards s;
      _score := _score s; _channel := _channel s;
      _allowed_to_open := _allowed_to_open s; _logger := _logger s ++ [e] |}).

(** Modelled from the spec: [Player.set_cards], of the base class declared
    outside [player_server.py], which "mutates the ParticipantRecord's hand
    and score". *)
Definition Player_set_cards (cards : list Card) (score : Score) : M unit := fun s =>
  (Ret tt,
   {| _id := _id s; _name := _name s; _money := _money s; _cards := cards;
      _score := Some score; _channel := _channel s;
      _allowed_to_open := _allowed_to_open s; _logger := _logger s |}).

(** Modelled from the spec: [Player.get_score], the "current score" of the
    participant record; there is none to use before the first deal. *)
Definition get_score : M Score := fun s =>
  (match _score s with Some sc => Ret sc | None => Raise (AttributeError "_score") end, s).

Definition get_cards : M (list Card) := fun s => (Ret (_cards s), s).

Definition send_message (m : message) : M unit :=
  on_channel (Channel.send_message m).

Definition recv_message (timeout : option Z) : M message :=
  on_channel (Channel.recv_message timeout).

Definition disconnect : M unit :=
  try_catch (on_channel Channel.close) (fun _ => true) (fun _ => mret tt).

Definition update_channel (channel : Channel) : M unit := fun s =>
  (Ret tt, with_channel channel s).

Definition try_send_message (m : message) : M bool :=
  try_catch (send_message m;; mret true)
    (fun e => match e with ChannelError => true | _ => false end)
    (fun _ => mret false).

Definition set_cards (cards : list Card) (score min_opening_score : Score) : M unit :=
  Player_set_cards cards score;;
  new_score ← get_score;
  let allowed := (0 <=? cmp min_opening_score new_score)%Z in
  (fun s =>
     (Ret tt,
      {| _id := _id s; _name := _name s; _money := _money s; _cards := _cards s;
         _score := _score s; _channel := _channel s;
         _allowed_to_open := Some allowed; _logger := _logger s |}));;
  hand ← get_cards;
  sc ← get_score;
  send_message {[ "msg_id" := VStr "set-cards";
                  "cards" := VList (card_dto <$> hand);
                  "score" := score_dto sc;
                  "allowed_to_open" := VBool allowed ]}.

(** The loop that opens [change_cards] and [bet]:
    [while True: message = recv; (msg_id missing: raise); if not ping: break].
    Every turn takes one event off the inbox, or ends the loop when there is
    none, so one more turn than the inbox is long is enough. *)
Fixpoint await_reply_turns (turns : nat) (timeout : option Z) : M message :=
  match turns with
  | O => fun s => (Block, s)
  | S turns' =>
      message ← recv_message timeout;
      match message !! "msg_id" with
      | None => raise (MessageFormatError "msg_id" "Attribute missing")
      | Some id =>
          if negb (Py.eqb id (VStr "ping")) then mret message
          else await_reply_turns turns' timeout
      end
  end.

Definition await_reply (timeout : option Z) : M message := fun s =>
  await_reply_turns (S (length (inbox (_channel s)))) timeout s.

(** The [try] statement that ends [change_cards], on the hand and the
    [cards] field of the reply. *)
Definition change_cards_try (hand : list Card) (discard_keys : value)
    : res (list value * list Card) :=
  try_except
    (keys ← Py.set discard_keys;
     discard_keys ← Py.sorted keys;
     if 4 <? length discard_keys then
       Err (MessageFormatError "cards" "Maximum number of cards exceeded")
     else
       discards ← Py.comprehension (Py.getitem hand) discard_keys;
       Ok (discard_keys, discards))
    (fun e => match e with TypeError | IndexError => true | _ => false end)
    (Err (MessageFormatError "cards" "Invalid list of cards")).

Definition change_cards (timeout : option Z) : M (list value * list Card) :=
  message ← await_reply timeout;
  lift (validate_msg_id message "change-cards");;
  match message !! "cards" with
  | None => raise (MessageFormatError "cards" "Attribute is missing")
  | Some discard_keys =>
      hand ← get_cards;
      lift (change_cards_try hand discard_keys)
  end.

(** The request [bet] sends. *)
Definition bet_request (min_bet max_bet : pynum) (opening : bool) (timeout : option Z)
    : message :=
  {[ "msg_id" := VStr "bet";
     "timeout" := match timeout with
                  | Some t => if (t =? 0)%Z then VNone else VStr (strftime t)
                  | None => VNone
                  end;
     "min_bet" := VNum min_bet;
     "max_bet" := VNum max_bet;
     "opening" := VBool opening ]}.

(** The [try] statement that ends [bet], on the reply and its [bet] field. *)
Definition bet_try (min_bet max_bet : pynum) (message : message) (raw : value)
    : res pynum :=
  try_except
    (bet ← Py.float float_of_string raw;
     if num_eqb (PFloat bet) (PFloat minus_one) then Ok (PFloat bet)
     else if num_ltb (PFloat bet) min_bet || num_gtb (PFloat bet) max_bet then
       Err (MessageFormatError "bet"
              ("Bet out of range. min: " +:+ format (VNum min_bet)
               +:+ " max: " +:+ format (VNum max_bet)
               +:+ ", actual: " +:+ format (VFloat bet)))
     else Ok (PFloat bet))
    (fun e => match e with ValueError => true | _ => false end)
    (offending ← dict_getattr message "bet";
     Err (MessageFormatError "bet" ("'" +:+ format offending +:+ "' is not a number"))).

Definition bet (min_bet max_bet : pynum) (opening : bool) (timeout : option Z) : M pynum :=
  send_message (bet_request min_bet max_bet opening timeout);;
  message ← await_reply timeout;
  lift (validate_msg_id message "bet");;
  if num_eqb max_bet (PInt (-1)) then mret (PInt (-1))
  else
    match message !! "bet" with
    | None => raise (MessageFormatError "bet" "Attribute is missing")
    | Some raw => lift (bet_try min_bet max_bet message raw)
    end.

(** [now] is what [time.time()] reads when the reply is awaited. *)
Definition ping (pong : bool) (now : Z) : M bool :=
  try_catch
    (send_message {[ "msg_id" := VStr "ping" ]};;
     (if pong then
        message ← recv_message (Some (now + 2)%Z);
        lift (validate_msg_id message "ping")
      else mret tt);;
     mret true)
    (fun e => match e with
              | ChannelError | MessageTimeout | MessageFormatError _ _ => true
              | _ => false
              end)
    (fun e => logger_error e;; disconnect;; mret false).

(** Modelled from the spec: [Player.get_id], [Player.get_name] and
    [Player.get_money], of the base class declared outside
    [player_server.py]: the "identity (id, name)" and "balance" of the
    participant record. *)
Definition get_id : M value := fun s => (Ret (_id s), s).
Definition get_name : M value := fun s => (Ret (_name s), s).
Definition get_money : M value := fun s => (Ret (_money s), s).

Definition dto (with_score : bool) : M message :=
  id ← get_id;
  name ← get_name;
  money ← get_money;
  score ← (if with_score then sc ← get_score; mret (score_dto sc) else mret VNone);
  mret {[ "id" := id; "name" := name; "money" := money; "score" := score ]}.

(** ** The vocabulary of the properties *)

(** The adapter after [n] receives with the deadline [timeout], each of
    which took one event off the inbox. *)
Definition received (n : nat) (timeout : option Z) (s : PlayerServer) : PlayerServer :=
  let ch := _channel s in
  with_channel
    {| inbox := drop n (inbox ch); outbox := outbox ch;
       send_fails := send_fails ch; close_fails := close_fails ch;
       deadlines := deadlines ch ++ replicate n timeout;
       close_calls := close_calls ch |} s.

(** The adapter after it sent [m]. *)
Definition sent (m : message) (s : PlayerServer) : PlayerServer :=
  let ch := _channel s in
  with_channel
    {| inbox := inbox ch; outbox := outbox ch ++ [m];
       send_fails := send_fails ch; close_fails := close_fails ch;
       deadlines := deadlines ch; close_calls := close_calls ch |} s.

(** Modelled from the spec: the sign of [Score.cmp], declared outside
    [player_server.py].  The spec reads the flag
    "(minOpeningScore compared-to newScore) >= 0" as "true when the
    participant's score meets or exceeds the minimum required to open
    (comparison is the external score-ranking order, ties count as eligible)":
    [a.cmp(b) >= 0] exactly when [b] meets or exceeds [a] in the ranking. *)
Definition cmp_ranking (meets : Score -> Score -> Prop) : Prop :=
  forall a b, (0 <= cmp a b)%Z <-> meets b a.

(** What [ping(pong=True)] comes to, by what the send and the receive meet:
    [None] when the exchange succeeds, else the error the handler is given. *)
Definition ping_failure (s : PlayerServer) : option exn :=
  if send_fails (_channel s) then Some ChannelError
  else match inbox (_channel s) with
       | [] | EvTimeout :: _ => Some MessageTimeout
       | EvError :: _ => Some ChannelError
       | EvMessage m :: _ =>
           match validate_msg_id m "ping" with
           | Ok _ => None
           | Err e => Some e
           end
       end.

(** The adapter with [n] more receives with the deadline [timeout] on
    record than it made. *)
Definition logged (n : nat) (timeout : option Z) (s : PlayerServer) : PlayerServer :=
  let ch := _channel s in
  with_channel
    {| inbox := inbox ch; outbox := outbox ch;
       send_fails := send_fails ch; close_fails := close_fails ch;
       deadlines := deadlines ch ++ replicate n timeout;
       close_calls := close_calls ch |} s.

(** The adapter with the events [evs] ahead of what its inbox holds. *)
Definition incoming (evs : list event) (s : PlayerServer) : PlayerServer :=
  let ch := _channel s in
  with_channel
    {| inbox := evs ++ inbox ch; outbox := outbox ch;
       send_fails := send_fails ch; close_fails := close_fails ch;
       deadlines := deadlines ch; close_calls := close_calls ch |} s.

(** An operation whose receives all carry the deadline [t] does the same
    whatever number of such receives are already on record. *)
Definition log_frame {A} (t : option Z) (m : M A) : Prop :=
  forall n s, m (logged n t s) = let '(r, s') := m s in (r, logged n t s').

(** Every receive of an operation carries the deadline [t]. *)
Definition same_deadline {A} (t : option Z) (m : M A) : Prop :=
  forall s, exists k,
    deadlines (_channel (m s).2) = deadlines (_channel s) ++ replicate k t.


(** A keep-alive message. *)
Definition is_ping (m : message) : Prop := m !! "msg_id" = Some (VStr "ping").

(** The adapter after [close] was called on its channel once. *)
Definition closed (s : PlayerServer) : PlayerServer :=
  let ch := _channel s in
  with_channel
    {| inbox := inbox ch; outbox := outbox ch;
       send_fails := send_fails ch; close_fails := close_fails ch;
       deadlines := deadlines ch; close_calls := S (close_calls ch) |} s.

(** The adapter with [out] for the messages its channel sent. *)
Definition with_outbox (out : list message) (s : PlayerServer) : PlayerServer :=
  let ch := _channel s in
  with_channel
    {| inbox := inbox ch; outbox := out;
       send_fails := send_fails ch; close_fails := close_fails ch;
       deadlines := deadlines ch; close_calls := close_calls ch |} s.

(** Everything the adapter holds beside its channel and its log. *)
Definition participant (s : PlayerServer)
    : value * value * value * list Card * option Score * option bool :=
  (_id s, _name s, _money s, _cards s, _score s, _allowed_to_open s).

(** A [float] that is not a number. *)
Definition is_nan (f : spec_float) : Prop := float_x f = XNan.

(** An operation that does the same whatever the channel has sent. *)
Definition outbox_frame {A} (m : M A) : Prop :=
  forall out s, m (with_outbox out s) = let '(r, s') := m s in (r, with_outbox out s').

(** The collaborators are functions, which proof search would take for
    hypotheses: they are put aside before it runs. *)
Ltac forget_collaborators :=
  try clear card_dto; try clear score_dto; try clear cmp;
  try clear float_of_string; try clear format; try clear strftime.

(** * Properties *)

(** ** Comparison of numbers *)

Lemma fin_compare_antisym m1 e1 m2 e2 :
  fin_compare m2 e2 m1 e1 = CompOpp (fin_compare m1 e1 m2 e2).
Proof.
  unfold fin_compare. rewrite (Z.min_comm e2 e1). apply Z.compare_antisym.
Qed.

Lemma num_compare_antisym a b :
  num_compare b a = CompOpp <$> num_compare a b.
Proof.
  unfold num_compare.
  destruct (num_x a), (num_x b); simpl; try reflexivity.
  f_equal. apply fin_compare_antisym.
Qed.

Lemma num_leb_not_gtb a b : num_leb a b = true -> num_gtb a b = false.
Proof. unfold num_leb, num_gtb. by destruct (num_compare a b) as [[]|]. Qed.

Lemma num_leb_not_ltb a b : num_leb a b = true -> num_ltb b a = false.
Proof.
  unfold num_leb, num_ltb. rewrite (num_compare_antisym a b).
  by destruct (num_compare a b) as [[]|].
Qed.

Lemma num_compare_int a b : num_compare (PInt a) (PInt b) = Some (a ?= b)%Z.
Proof.
  unfold num_compare. cbn [num_x x_compare]. unfold fin_compare.
  change (2 ^ (0 - Z.min 0 0))%Z with 1%Z. by rewrite !Z.mul_1_r.
Qed.

Lemma num_eqb_int a b : num_eqb (PInt a) (PInt b) = (a =? b)%Z.
Proof.
  unfold num_eqb. rewrite num_compare_int, Z.eqb_compare.
  by destruct (a ?= b)%Z.
Qed.

Lemma num_ltb_int a b : num_ltb (PInt a) (PInt b) = (a <? b)%Z.
Proof.
  unfold num_ltb. rewrite num_compare_int. unfold Z.ltb.
  by destruct (a ?= b)%Z.
Qed.

(** ** Equality and order of values *)

Lemma as_index_num v z : as_index v = Some z -> as_num v = Some (PInt z).
Proof. destruct v as [|[]|[]| | |]; simpl; congruence. Qed.

Lemma eqb_index a b x y :
  as_index a = Some x -> as_index b = Some y -> Py.eqb a b = (x =? y)%Z.
Proof.
  intros Ha%as_index_num Hb%as_index_num. unfold Py.eqb.
  rewrite Ha, Hb. apply num_eqb_int.
Qed.

Lemma ltb_index a b x y :
  as_index a = Some x -> as_index b = Some y -> Py.ltb a b = Some (x <? y)%Z.
Proof.
  intros Ha%as_index_num Hb%as_index_num. unfold Py.ltb.
  rewrite Ha, Hb. f_equal. apply num_ltb_int.
Qed.

Lemma eqb_str v s : Py.eqb v (VStr s) = true <-> v = VStr s.
Proof.
  split.
  - destruct v as [|b|n|t|l|d]; simpl; try discriminate.
    unfold Py.eqb; simpl. intros H%bool_decide_eq_true. by subst.
  - intros ->. unfold Py.eqb; simpl. by apply bool_decide_eq_true.
Qed.


(** ** [set] and [sorted] *)

Lemma set_add_ok acc v acc' :
  Py.set_add acc v = Ok acc' ->
  Py.hashable v = true /\
  acc' = if existsb (Py.eqb v) acc then acc else acc ++ [v].
Proof. unfold Py.set_add. destruct (Py.hashable v); (forget_collaborators; naive_solver). Qed.

Lemma set_add_err acc v e : Py.set_add acc v = Err e -> e = TypeError.
Proof. unfold Py.set_add. destruct (Py.hashable v); (forget_collaborators; naive_solver). Qed.

Lemma set_from_err l : forall acc e, Py.set_from acc l = Err e -> e = TypeError.
Proof.
  induction l as [|v l IH]; intros acc e; simpl; [done|].
  destruct (Py.set_add acc v) as [acc'|e'] eqn:Hadd; simpl.
  - apply IH.
  - intros [= <-]. by eapply set_add_err.
Qed.

Lemma set_from_hashable l :
  forall acc, Forall (fun v => Py.hashable v = true) l -> exists ks, Py.set_from acc l = Ok ks.
Proof.
  induction l as [|v l IH]; intros acc Hl; simpl; [by eexists|].
  inversion_clear Hl as [|? ? Hv Hl']. unfold Py.set_add. rewrite Hv. simpl.
  by apply IH.
Qed.

(** Every key of the set is one of the elements given. *)
Lemma set_from_elem l :
  forall acc ks k, Py.set_from acc l = Ok ks -> k ∈ ks -> k ∈ acc \/ k ∈ l.
Proof.
  induction l as [|v l IH]; intros acc ks k; simpl.
  - intros [= <-]. auto.
  - destruct (Py.set_add acc v) as [acc'|] eqn:Hadd; [simpl|done].
    intros Hks Hk. apply set_add_ok in Hadd as [_ ->].
    destruct (IH _ _ _ Hks Hk) as [Hin|Hin]; [|right; by constructor].
    destruct (existsb _ acc); [by left|].
    apply elem_of_app in Hin as [Hin|Hin%list_elem_of_singleton]; [by left|].
    right. subst. by constructor.
Qed.

(** Every element given is in the set, or equal to a key of the set. *)
Lemma set_from_cover l :
  forall acc ks, Py.set_from acc l = Ok ks ->
  (forall a, a ∈ acc -> a ∈ ks) /\
  (forall v, v ∈ l -> v ∈ ks \/ exists k, k ∈ ks /\ Py.eqb v k = true).
Proof.
  induction l as [|v l IH]; intros acc ks; simpl.
  - intros [= <-]. split; [done|]. intros v Hv. by apply elem_of_nil in Hv.
  - destruct (Py.set_add acc v) as [acc'|] eqn:Hadd; [simpl|done].
    intros Hks. apply set_add_ok in Hadd as [_ ->].
    destruct (IH _ _ Hks) as [Hacc Hl]. split.
    + intros a Ha. apply Hacc.
      destruct (existsb _ acc); [done|]. apply elem_of_app. by left.
    + intros w [->|Hw]%elem_of_cons; [|by apply Hl].
      destruct (existsb (Py.eqb v) acc) eqn:Hex.
      * apply existsb_exists in Hex as (a & Ha%list_elem_of_In & Heq).
        right. exists a. split; [by apply Hacc|done].
      * left. apply Hacc, elem_of_app. right. by constructor.
Qed.

(** Keys that are indexes are pairwise different indexes. *)
Lemma set_from_distinct l :
  forall acc ks, Py.set_from acc l = Ok ks ->
  (Forall is_index acc -> NoDup (index_of <$> acc)) ->
  Forall is_index ks -> NoDup (index_of <$> ks).
Proof.
  induction l as [|v l IH]; intros acc ks; simpl.
  - intros [= <-]. auto.
  - destruct (Py.set_add acc v) as [acc'|] eqn:Hadd; [simpl|done].
    intros Hks Hacc. apply (IH _ _ Hks).
    apply set_add_ok in Hadd as [_ ->].
    destruct (existsb (Py.eqb v) acc) eqn:Hex; [done|].
    intros [Ha [Hv _]%Forall_cons]%Forall_app.
    rewrite fmap_app. apply NoDup_app. split_and!; [by apply Hacc| |apply NoDup_singleton].
    intros z (a & -> & Hin)%list_elem_of_fmap Hz%list_elem_of_singleton.
    assert (Py.eqb v a = false) as Hne.
    { apply not_true_is_false. intros Heq.
      apply not_true_iff_false in Hex. apply Hex, existsb_exists.
      exists a. split; [by apply list_elem_of_In|done]. }
    rewrite Forall_forall in Ha. destruct (Ha _ Hin) as [x Hx], Hv as [y Hy].
    rewrite (eqb_index _ _ _ _ Hy Hx) in Hne. apply Z.eqb_neq in Hne.
    unfold index_of in Hz. rewrite Hx, Hy in Hz. simpl in Hz. congruence.
Qed.

Lemma insert_err x l e : Py.insert x l = Err e -> e = TypeError.
Proof.
  induction l as [|y l IH] in e |- *; simpl; [done|].
  destruct (Py.ltb y x) as [[]|]; [|done|congruence].
  destruct (Py.insert x l); simpl; [done|]. intros [= <-]. by apply IH.
Qed.

Lemma sorted_err l e : Py.sorted l = Err e -> e = TypeError.
Proof.
  induction l as [|x l IH] in e |- *; simpl; [done|].
  destruct (Py.sorted l); simpl; [apply insert_err|]. intros [= <-]. by apply IH.
Qed.

Lemma insert_perm x l s : Py.insert x l = Ok s -> s ≡ₚ x :: l.
Proof.
  induction l as [|y l IH] in s |- *; simpl; [by intros [= <-]|].
  destruct (Py.ltb y x) as [[]|]; [|by intros [= <-]|done].
  destruct (Py.insert x l) as [s'|]; simpl; [|done]. intros [= <-].
  rewrite (IH s' eq_refl). apply Permutation_swap.
Qed.

Lemma sorted_perm l s : Py.sorted l = Ok s -> s ≡ₚ l.
Proof.
  induction l as [|x l IH] in s |- *; simpl; [by intros [= <-]|].
  destruct (Py.sorted l) as [s'|]; simpl; [|done].
  intros ->%insert_perm. by rewrite (IH s' eq_refl).
Qed.

Lemma insert_index x l :
  is_index x -> Forall is_index l -> StronglySorted Z.le (index_of <$> l) ->
  exists s, Py.insert x l = Ok s /\ StronglySorted Z.le (index_of <$> s).
Proof.
  intros [zx Hx]. induction l as [|y l IH]; simpl.
  - intros _ _. eexists. split; [done|]. repeat constructor.
  - intros [[zy Hy] Hl]%Forall_cons Hs.
    apply StronglySorted_inv in Hs as [Hs Hhd].
    rewrite (ltb_index _ _ _ _ Hy Hx).
    assert (index_of x = zx) as Hix by (unfold index_of; by rewrite Hx).
    assert (index_of y = zy) as Hiy by (unfold index_of; by rewrite Hy).
    destruct (zy <? zx)%Z eqn:Hlt.
    + destruct (IH Hl Hs) as (s & Hins & Hss). rewrite Hins. simpl.
      eexists. split; [done|]. simpl. constructor; [done|].
      rewrite (insert_perm _ _ _ Hins). simpl. constructor; [|done].
      apply Z.ltb_lt in Hlt. lia.
    + eexists. split; [done|]. simpl. apply Z.ltb_ge in Hlt.
      constructor; [by constructor|]. constructor; [lia|].
      eapply Forall_impl; [exact Hhd|]. simpl. intros; lia.
Qed.

Lemma sorted_index l :
  Forall is_index l ->
  exists s, Py.sorted l = Ok s /\ StronglySorted Z.le (index_of <$> s).
Proof.
  induction l as [|x l IH]; simpl.
  - intros _. eexists. split; [done|]. constructor.
  - intros [Hx Hl]%Forall_cons. destruct (IH Hl) as (s & Hsl & Hs).
    rewrite Hsl. simpl. apply insert_index; [exact Hx| |exact Hs].
    by rewrite (sorted_perm l s Hsl).
Qed.

Lemma sorted_nodup_strict (zs : list Z) :
  StronglySorted Z.le zs -> NoDup zs -> StronglySorted Z.lt zs.
Proof.
  induction 1 as [|z zs Hs IH Hhd]; [constructor|].
  intros [Hz Hnd]%NoDup_cons. constructor; [by apply IH|].
  rewrite Forall_forall in Hhd |- *. intros y Hy.
  specialize (Hhd y Hy). assert (z <> y) by (by intros ->). lia.
Qed.

(** ** Subscripts and comprehensions *)

Lemma getitem_ok (hand : list Card) k c :
  Py.getitem hand k = Ok c <->
  exists z, as_index k = Some z /\
    (- Z.of_nat (length hand) <= z < Z.of_nat (length hand))%Z /\
    hand !! Z.to_nat (if (z <? 0)%Z then z + Z.of_nat (length hand) else z)%Z = Some c.
Proof.
  unfold Py.getitem. split.
  - destruct (as_index k) as [z|]; [|done]. simpl.
    destruct (_ && _) eqn:Hrange; [|done].
    destruct (hand !! _) as [c'|] eqn:Hc; [|done]. intros [= <-].
    exists z. split; [done|]. split; [|done].
    apply andb_true_iff in Hrange as [H1%Z.leb_le H2%Z.ltb_lt].
    destruct (z <? 0)%Z eqn:Hz; [apply Z.ltb_lt in Hz|apply Z.ltb_ge in Hz]; lia.
  - intros (z & -> & Hz & Hc). simpl.
    destruct (_ && _) eqn:Hrange; [by rewrite Hc|]. exfalso.
    apply andb_false_iff in Hrange. rewrite Z.leb_gt, Z.ltb_ge in Hrange.
    destruct (z <? 0)%Z eqn:Hneg; [apply Z.ltb_lt in Hneg|apply Z.ltb_ge in Hneg]; lia.
Qed.

Lemma getitem_in_range (hand : list Card) k z :
  as_index k = Some z ->
  (- Z.of_nat (length hand) <= z < Z.of_nat (length hand))%Z ->
  exists c, Py.getitem hand k = Ok c.
Proof.
  intros Hk Hz.
  destruct (lookup_lt_is_Some_2 hand
    (Z.to_nat (if (z <? 0)%Z then z + Z.of_nat (length hand) else z)%Z)) as [c Hc].
  { destruct (z <? 0)%Z eqn:Hneg; [apply Z.ltb_lt in Hneg|apply Z.ltb_ge in Hneg]; lia. }
  exists c. apply getitem_ok. eauto.
Qed.

Lemma getitem_err (hand : list Card) k e :
  Py.getitem hand k = Err e -> e = TypeError \/ e = IndexError.
Proof.
  unfold Py.getitem. destruct (as_index k); [|(forget_collaborators; naive_solver)]. simpl.
  destruct (_ && _); [|(forget_collaborators; naive_solver)]. destruct (hand !! _); (forget_collaborators; naive_solver).
Qed.



Lemma comprehension_ok {A B} (f : A -> res B) l ys :
  Py.comprehension f l = Ok ys <-> Forall2 (fun x y => f x = Ok y) l ys.
Proof.
  revert ys. induction l as [|x l IH]; intros ys; simpl.
  - split; [intros [= <-]; constructor | by inversion 1].
  - split.
    + destruct (f x) as [y|] eqn:Hx; [simpl|done].
      destruct (Py.comprehension f l) as [ys'|]; [simpl|done].
      intros [= <-]. constructor; [done|]. by apply IH.
    + inversion 1 as [|? y ? ys' Hx Hl]; subst. rewrite Hx. simpl.
      apply IH in Hl. by rewrite Hl.
Qed.

Lemma comprehension_err {A B} (f : A -> res B) l e :
  Py.comprehension f l = Err e -> exists x, x ∈ l /\ f x = Err e.
Proof.
  induction l as [|x l IH]; simpl; [done|].
  destruct (f x) as [y|e'] eqn:Hx; simpl.
  - destruct (Py.comprehension f l) as [ys|e'']; simpl; [done|].
    intros [= <-]. destruct IH as (x' & Hin & Hx'); [done|].
    exists x'. split; [by constructor|done].
  - intros [= <-]. exists x. split; [constructor|done].
Qed.


(** ** The built-ins on examples *)

Example float_of_int_minus_one : float_of_int (-1) = Ok minus_one.
Proof. reflexivity. Qed.

Example compare_int_with_float :
  num_leb (PInt 10) (PFloat (binary64_of_Z 30)) = true /\
  num_ltb (PFloat (binary64_of_Z 5)) (PInt 10) = true /\
  num_eqb (PFloat (binary64_of_Z (-1))) (PInt (-1)) = true /\
  num_leb (PFloat S754_nan) (PFloat S754_nan) = false.
Proof. by split_and!. Qed.

Example set_keeps_first_of_equals :
  Py.set (VList [VInt 2; VFloat (binary64_of_Z 2); VBool true; VInt 1; VInt 2])
  = Ok [VInt 2; VBool true].
Proof. reflexivity. Qed.

Example sorted_set_of_indexes :
  (ks ← Py.set (VList [VInt 2; VInt 2; VInt 0]); Py.sorted ks) = Ok [VInt 0; VInt 2].
Proof. reflexivity. Qed.

Example sorted_mixed_kinds : Py.sorted [VInt 1; VStr "a"] = Err TypeError.
Proof. reflexivity. Qed.

Example set_of_unhashable : Py.set (VList [VList [VInt 1]]) = Err TypeError.
Proof. reflexivity. Qed.

Example getitem_examples :
  Py.getitem [10; 20; 30] (VInt (-1)) = Ok 30 /\
  Py.getitem [10; 20; 30] (VInt 3) = Err IndexError /\
  Py.getitem [10; 20; 30] (VInt (-4)) = Err IndexError /\
  Py.getitem [10; 20; 30] (VFloat (binary64_of_Z 1)) = Err TypeError /\
  Py.getitem [10; 20; 30] (VBool true) = Ok 20.
Proof. by split_and!. Qed.

(** ** Receiving *)

Lemma received_0 t s : received 0 t s = s.
Proof.
  destruct s as [? ? ? ? ? [] ? ?]. unfold received, with_channel. simpl.
  by rewrite app_nil_r.
Qed.

Lemma received_received a b t s :
  received a t (received b t s) = received (b + a) t s.
Proof.
  unfold received, with_channel. simpl.
  by rewrite drop_drop, replicate_add, app_assoc.
Qed.

Lemma received_inbox n t s :
  inbox (_channel (received n t s)) = drop n (inbox (_channel s)).
Proof. done. Qed.

Lemma send_message_ok m s :
  send_fails (_channel s) = false -> send_message m s = (Ret tt, sent m s).
Proof.
  intros H. unfold send_message, on_channel, Channel.send_message, sent.
  by rewrite H.
Qed.

Lemma send_message_fails m s :
  send_fails (_channel s) = true -> send_message m s = (Raise ChannelError, s).
Proof.
  intros H. unfold send_message, on_channel, Channel.send_message. rewrite H.
  by destruct s as [? ? ? ? ? [] ? ?].
Qed.

Lemma recv_message_msg t s m rest :
  inbox (_channel s) = EvMessage m :: rest ->
  recv_message t s = (Ret m, received 1 t s).
Proof.
  intros H. unfold recv_message, on_channel, Channel.recv_message, received.
  rewrite H. simpl. by rewrite drop_0.
Qed.

(** The loop, one turn unrolled. *)
Lemma await_reply_unfold t s :
  await_reply t s =
  (message ← recv_message t;
   match message !! "msg_id" with
   | None => raise (MessageFormatError "msg_id" "Attribute missing")
   | Some id =>
       if negb (Py.eqb id (VStr "ping")) then mret message else await_reply t
   end) s.
Proof.
  unfold await_reply at 1. cbn [await_reply_turns]. unfold mbind, M_bind.
  destruct (inbox (_channel s)) as [|[m| |] rest] eqn:Hin.
  - unfold recv_message, on_channel, Channel.recv_message. rewrite Hin.
    by destruct t.
  - rewrite (recv_message_msg _ _ _ _ Hin).
    destruct (m !! "msg_id") as [id|]; [|done].
    destruct (negb _); [done|]. unfold await_reply.
    rewrite received_inbox, Hin. simpl. by rewrite drop_0.
  - unfold recv_message, on_channel, Channel.recv_message. by rewrite Hin.
  - unfold recv_message, on_channel, Channel.recv_message. by rewrite Hin.
Qed.

Lemma await_reply_ping t s m rest :
  inbox (_channel s) = EvMessage m :: rest -> is_ping m ->
  await_reply t s = await_reply t (received 1 t s).
Proof.
  intros Hin Hm. rewrite await_reply_unfold. unfold mbind, M_bind.
  rewrite (recv_message_msg _ _ _ _ Hin), Hm.
  by rewrite (proj2 (eqb_str _ _) eq_refl).
Qed.

(** Leading keep-alive messages are passed over, one receive each. *)
Lemma await_reply_pings t pings :
  forall s evs,
  inbox (_channel s) = (EvMessage <$> pings) ++ evs -> Forall is_ping pings ->
  await_reply t s = await_reply t (received (length pings) t s).
Proof.
  induction pings as [|m pings IH]; intros s evs Hin Hp; simpl.
  - by rewrite received_0.
  - inversion_clear Hp as [|? ? Hm Hp']. simpl in Hin.
    rewrite (await_reply_ping _ _ _ _ Hin Hm).
    rewrite (IH (received 1 t s) evs); [|by rewrite received_inbox, Hin|done].
    by rewrite received_received.
Qed.

(** The first message that is no keep-alive ends the loop. *)
Lemma await_reply_reply t s m rest id :
  inbox (_channel s) = EvMessage m :: rest ->
  m !! "msg_id" = Some id -> Py.eqb id (VStr "ping") = false ->
  await_reply t s = (Ret m, received 1 t s).
Proof.
  intros Hin Hm Hid. rewrite await_reply_unfold. unfold mbind, M_bind.
  by rewrite (recv_message_msg _ _ _ _ Hin), Hm, Hid.
Qed.

Lemma await_reply_after_pings t s pings m rest id :
  inbox (_channel s) = (EvMessage <$> pings) ++ EvMessage m :: rest ->
  Forall is_ping pings ->
  m !! "msg_id" = Some id -> Py.eqb id (VStr "ping") = false ->
  await_reply t s = (Ret m, received (S (length pings)) t s).
Proof.
  intros Hin Hp Hm Hid. rewrite (await_reply_pings _ _ _ _ Hin Hp).
  rewrite (await_reply_reply _ _ m rest id); [|by rewrite received_inbox, Hin, <- (length_fmap EvMessage pings), drop_app_length|done..].
  rewrite received_received. do 2 f_equal. lia.
Qed.

(** The loop touches nothing but the channel. *)
Lemma await_reply_turns_channel t n :
  forall s r s', await_reply_turns n t s = (r, s') -> s' = with_channel (_channel s') s.
Proof.
  induction n as [|n IH]; intros s r s'; simpl.
  - intros [= _ <-]. by destruct s.
  - unfold mbind, M_bind, recv_message, on_channel.
    destruct (Channel.recv_message t (_channel s)) as [[m| |] ch]; try by intros [= _ <-].
    destruct (m !! "msg_id") as [id|]; [|by intros [= _ <-]].
    destruct (negb _); [by intros [= _ <-]|].
    intros ->%IH. done.
Qed.

Lemma await_reply_cards t s r s' : await_reply t s = (r, s') -> _cards s' = _cards s.
Proof. unfold await_reply. by intros ->%await_reply_turns_channel. Qed.

(** A message the loop hands over was in the inbox and carries a [msg_id]
    other than "ping". *)
Lemma await_reply_turns_ret t n :
  forall s m s', await_reply_turns n t s = (Ret m, s') ->
  EvMessage m ∈ inbox (_channel s) /\
  exists id, m !! "msg_id" = Some id /\ Py.eqb id (VStr "ping") = false.
Proof.
  induction n as [|n IH]; intros s m s'; simpl; [done|].
  unfold mbind, M_bind.
  destruct (inbox (_channel s)) as [|[m'| |] rest] eqn:Hin.
  - unfold recv_message, on_channel, Channel.recv_message. rewrite Hin. by destruct t.
  - rewrite (recv_message_msg _ _ _ _ Hin).
    destruct (m' !! "msg_id") as [id|] eqn:Hid; [|done].
    destruct (Py.eqb id (VStr "ping")) eqn:Hping; simpl.
    + intros [Hm Hr]%IH. split; [|done]. right.
      by rewrite received_inbox, Hin in Hm.
    + intros [= <- _]. split; [by left|eauto].
  - unfold recv_message, on_channel, Channel.recv_message. by rewrite Hin.
  - unfold recv_message, on_channel, Channel.recv_message. by rewrite Hin.
Qed.

Lemma await_reply_ret t s m s' :
  await_reply t s = (Ret m, s') ->
  EvMessage m ∈ inbox (_channel s) /\
  exists id, m !! "msg_id" = Some id /\ Py.eqb id (VStr "ping") = false.
Proof. apply await_reply_turns_ret. Qed.

(** ** The discard exchange *)

(** What [change_cards] does with the [cards] field of the reply, given
    the hand: the body of its [try] statement. *)
Lemma change_cards_inv timeout s keys discards s' :
  change_cards timeout s = (Ret (keys, discards), s') ->
  exists m raw ks,
    EvMessage m ∈ inbox (_channel s) /\ m !! "cards" = Some raw /\
    Py.set raw = Ok ks /\ Py.sorted ks = Ok keys /\ length keys <= 4 /\
    Py.comprehension (Py.getitem (_cards s)) keys = Ok discards.
Proof.
  unfold change_cards, mbind at 1 2 3, M_bind.
  destruct (await_reply timeout s) as [[m| |] s1] eqn:Hloop; [|done..].
  destruct (validate_msg_id m "change-cards") as [[]|]; [|done]. cbn [lift outcome_of].
  destruct (m !! "cards") as [raw|] eqn:Hraw; [|done].
  unfold get_cards, lift, change_cards_try, try_except.
  destruct (Py.set raw) as [ks|] eqn:Hset; cbn [mbind res_bind];
    [|by destruct (match _ with TypeError | IndexError => _ | _ => _ end)].
  destruct (Py.sorted ks) as [keys'|] eqn:Hsorted; cbn [mbind res_bind];
    [|by destruct (match _ with TypeError | IndexError => _ | _ => _ end)].
  destruct (4 <? length keys') eqn:Hlen; [done|].
  destruct (Py.comprehension _ keys') as [discards'|] eqn:Hget; cbn [mbind res_bind];
    [|by destruct (match _ with TypeError | IndexError => _ | _ => _ end)].
  intros [= <- <- <-]. exists m, raw, ks.
  rewrite <- (await_reply_cards _ _ _ _ Hloop).
  apply await_reply_ret in Hloop as [Hin _]. apply Nat.ltb_ge in Hlen.
  split_and!; done.
Qed.

Lemma is_index_values (l : list value) :
  Forall is_index l -> Forall2 (fun k z => as_index k = Some z) l (index_of <$> l).
Proof.
  induction 1 as [|k l [z Hz] _ IH]; simpl; constructor; [|done].
  unfold index_of. by rewrite Hz.
Qed.

(** C4: a discard exchange that returns normally returns indexes in
    strictly ascending order, without duplicates, at most four of them; they
    are the elements of the [cards] field, each once, and the cards are
    resolved from the hand after this normalization.  For the hand
    [a; b; c; d; e] and the reply [cards: [2, 2, 0]] the result is the
    indexes [0; 2] and the cards [a; c]. *)
Theorem change_cards_indexes_normalized :
  (forall timeout s keys discards s',
    change_cards timeout s = (Ret (keys, discards), s') ->
    exists m raw elems zs,
      EvMessage m ∈ inbox (_channel s) /\ m !! "cards" = Some raw /\
      Py.iter raw = Ok elems /\
      Forall2 (fun k z => as_index k = Some z) keys zs /\
      StronglySorted Z.lt zs /\ NoDup zs /\ length keys <= 4 /\
      (forall k, k ∈ keys -> k ∈ elems) /\
      (forall v, v ∈ elems -> v ∈ keys \/ exists k, k ∈ keys /\ Py.eqb v k = true) /\
      Forall2 (fun k c => Py.getitem (_cards s) k = Ok c) keys discards) /\
  (forall (a b c d e : Card) timeout s rest,
    _cards s = [a; b; c; d; e] ->
    inbox (_channel s) =
      EvMessage {[ "msg_id" := VStr "change-cards";
                   "cards" := VList [VInt 2; VInt 2; VInt 0] ]} :: rest ->
    change_cards timeout s = (Ret ([VInt 0; VInt 2], [a; c]), received 1 timeout s)).
Proof.
  split.
  - intros timeout s keys discards s' Hrun.
    apply change_cards_inv in Hrun as (m & raw & ks & Hm & Hraw & Hset & Hsorted & Hlen & Hget).
    unfold Py.set in Hset.
    destruct (Py.iter raw) as [elems|] eqn:Hiter; [cbn [mbind res_bind] in Hset|done].
    apply comprehension_ok in Hget.
    assert (Forall is_index keys) as Hkeys.
    { apply Forall_forall. intros k Hk. apply list_elem_of_lookup in Hk as [i Hi].
      destruct (Forall2_lookup_l _ _ _ _ _ Hget Hi) as (c & _ & Hc).
      apply getitem_ok in Hc as (z & Hz & _). by exists z. }
    pose proof (sorted_perm _ _ Hsorted) as Hperm.
    assert (Forall is_index ks) as Hks by (by rewrite <- Hperm).
    destruct (sorted_index ks Hks) as (keys' & Hsorted' & Hle).
    assert (keys' = keys) as -> by congruence.
    assert (NoDup (index_of <$> keys)) as Hnodup.
    { rewrite Hperm. apply (set_from_distinct _ _ _ Hset); [|done].
      intros _. constructor. }
    exists m, raw, elems, (index_of <$> keys).
    split_and!; try done.
    + by apply is_index_values.
    + by apply sorted_nodup_strict.
    + intros k Hk. rewrite Hperm in Hk.
      destruct (set_from_elem _ _ _ _ Hset Hk) as [Hnil|]; [|done].
      by apply elem_of_nil in Hnil.
    + intros v Hv. destruct (set_from_cover _ _ _ Hset) as [_ Hcover].
      destruct (Hcover v Hv) as [Hin|(k & Hin & Heq)].
      * left. by rewrite Hperm.
      * right. exists k. by rewrite Hperm.
  - intros a b c d e timeout s rest Hhand Hin.
    unfold change_cards, mbind at 1 2 3, M_bind.
    rewrite (await_reply_reply _ _ _ _ (VStr "change-cards") Hin); [|done..].
    replace (validate_msg_id _ "change-cards") with (Ok tt) by done.
    cbn [lift outcome_of]. replace (_ !! "cards") with (Some (VList [VInt 2; VInt 2; VInt 0])) by done.
    unfold get_cards, lift. replace (_cards (received 1 timeout s)) with [a; b; c; d; e] by done.
    done.
Qed.

(** A well-formed reply to the discard request, after any keep-alives:
    the exchange comes down to the [try] statement on its [cards] field. *)
Lemma change_cards_run timeout s pings reply rest raw :
  inbox (_channel s) = (EvMessage <$> pings) ++ EvMessage reply :: rest ->
  Forall is_ping pings ->
  reply !! "msg_id" = Some (VStr "change-cards") ->
  reply !! "cards" = Some raw ->
  change_cards timeout s =
    (outcome_of (change_cards_try (_cards s) raw),
     received (S (length pings)) timeout s).
Proof.
  intros Hin Hp Hid Hraw. unfold change_cards, mbind at 1 2 3, M_bind.
  rewrite (await_reply_after_pings _ _ _ _ _ _ Hin Hp Hid); [|done].
  unfold validate_msg_id. rewrite Hid, Hraw. done.
Qed.





Lemma comprehension_succeeds {A B} (f : A -> res B) l :
  Forall (fun x => exists y, f x = Ok y) l -> exists ys, Py.comprehension f l = Ok ys.
Proof.
  intros Hl. destruct (Py.comprehension f l) as [ys|e] eqn:Hc; [by eexists|].
  apply comprehension_err in Hc as (x & Hx & Hfx).
  rewrite Forall_forall in Hl. destruct (Hl x Hx) as [y Hy]. congruence.
Qed.

(** C6: a negative index [k] that stays within the hand counted from its
    end is accepted: for a reply whose [cards] are integers from
    [-len(hand)] to [len(hand) - 1], at most four of them different, the
    exchange returns normally, [k] is one of the returned indexes, and its
    card is the one [len(hand) + k] places from the start (the last card
    for [k = -1]). *)
Theorem change_cards_negative_index timeout s pings reply rest zs k :
  inbox (_channel s) = (EvMessage <$> pings) ++ EvMessage reply :: rest ->
  Forall is_ping pings ->
  reply !! "msg_id" = Some (VStr "change-cards") ->
  reply !! "cards" = Some (VList (VInt <$> zs)) ->
  Forall (fun z => - Z.of_nat (length (_cards s)) <= z < Z.of_nat (length (_cards s)))%Z zs ->
  length (remove_dups zs) <= 4 ->
  k ∈ zs -> (k <= -1)%Z ->
  exists keys discards i c,
    change_cards timeout s =
      (Ret (keys, discards), received (S (length pings)) timeout s) /\
    keys !! i = Some (VInt k) /\ discards !! i = Some c /\
    _cards s !! Z.to_nat (Z.of_nat (length (_cards s)) + k) = Some c /\
    (k = (-1)%Z -> last (_cards s) = Some c).
Proof.
  intros Hin Hp Hid Hraw Hrange Hdistinct Hk Hneg.
  rewrite (change_cards_run _ _ _ _ _ _ Hin Hp Hid Hraw).
  set (hand := _cards s) in *. set (elems := VInt <$> zs).
  destruct (set_from_hashable elems []) as [ks Hset].
  { apply Forall_fmap, Forall_true. done. }
  assert (forall v, v ∈ ks -> exists z, v = VInt z /\ z ∈ zs) as Hks.
  { intros v Hv. destruct (set_from_elem _ _ _ _ Hset Hv) as [Hnil|Hel];
      [by apply elem_of_nil in Hnil|].
    apply list_elem_of_fmap in Hel as (z & -> & Hz). eauto. }
  assert (Forall is_index ks) as Hidx.
  { apply Forall_forall. intros v (z & -> & _)%Hks. by exists z. }
  destruct (sorted_index ks Hidx) as (keys & Hsorted & _).
  pose proof (sorted_perm _ _ Hsorted) as Hperm.
  assert (length keys <= 4) as Hlen.
  { rewrite Hperm, <- (length_fmap index_of). etrans; [|exact Hdistinct].
    apply submseteq_length, NoDup_submseteq.
    - apply (set_from_distinct _ _ _ Hset); [|done]. intros _. constructor.
    - intros z (v & -> & (z' & -> & Hz')%Hks)%list_elem_of_fmap.
      by apply elem_of_remove_dups. }
  destruct (comprehension_succeeds (Py.getitem hand) keys) as [discards Hget].
  { apply Forall_forall. intros v Hv. rewrite Hperm in Hv.
    destruct (Hks v Hv) as (z & -> & Hz). rewrite Forall_forall in Hrange.
    by apply (getitem_in_range hand (VInt z) z), Hrange. }
  assert (VInt k ∈ keys) as Hkey.
  { rewrite Hperm. destruct (set_from_cover _ _ _ Hset) as [_ Hcover].
    destruct (Hcover (VInt k)) as [Hin'|(v & Hv & Heq)]; [by apply list_elem_of_fmap_2|done|].
    destruct (Hks v Hv) as (z & -> & _).
    rewrite (eqb_index _ _ k z) in Heq by done. apply Z.eqb_eq in Heq. by subst. }
  apply list_elem_of_lookup in Hkey as [i Hi].
  pose proof Hget as Hall. apply comprehension_ok in Hall.
  destruct (Forall2_lookup_l _ _ _ _ _ Hall Hi) as (c & Hc & Hgetk).
  apply getitem_ok in Hgetk as (z & [= <-] & _ & Hlookup).
  assert ((k <? 0)%Z = true) as Hlt by (apply Z.ltb_lt; lia). rewrite Hlt in Hlookup.
  exists keys, discards, i, c. split_and!; try done.
  - unfold change_cards_try, try_except, Py.set. cbn [Py.iter mbind res_bind].
    fold elems. rewrite Hset. cbn [mbind res_bind]. rewrite Hsorted.
    cbn [mbind res_bind]. apply Nat.ltb_ge in Hlen. rewrite Hlen, Hget. done.
  - by rewrite Z.add_comm.
  - intros ->. rewrite last_lookup, <- Hlookup. f_equal. lia.
Qed.

(** ** The betting turn *)

(** A reply with [msg_id] "bet", after any keep-alives: the turn comes
    down to the check of [max_bet] and the [try] statement. *)
Lemma bet_run min_bet max_bet opening timeout s pings reply rest :
  send_fails (_channel s) = false ->
  inbox (_channel s) = (EvMessage <$> pings) ++ EvMessage reply :: rest ->
  Forall is_ping pings ->
  reply !! "msg_id" = Some (VStr "bet") ->
  bet min_bet max_bet opening timeout s =
    (if num_eqb max_bet (PInt (-1)) then Ret (PInt (-1))
     else match reply !! "bet" with
          | None => Raise (MessageFormatError "bet" "Attribute is missing")
          | Some raw => outcome_of (bet_try min_bet max_bet reply raw)
          end,
     received (S (length pings)) timeout
       (sent (bet_request min_bet max_bet opening timeout) s)).
Proof.
  intros Hsend Hin Hp Hid. unfold bet, mbind at 1 2 3, M_bind.
  rewrite (send_message_ok _ _ Hsend).
  rewrite (await_reply_after_pings _ _ pings reply rest (VStr "bet")); [|done..].
  unfold validate_msg_id. rewrite Hid.
  rewrite (proj2 (eqb_str _ _) eq_refl). cbn [lift outcome_of].
  destruct (num_eqb max_bet (PInt (-1))); [reflexivity|].
  destruct (reply !! "bet"); reflexivity.
Qed.

Lemma bet_try_parsed min_bet max_bet reply raw v :
  Py.float float_of_string raw = Ok v ->
  bet_try min_bet max_bet reply raw =
    if num_eqb (PFloat v) (PFloat minus_one) then Ok (PFloat v)
    else if num_ltb (PFloat v) min_bet || num_gtb (PFloat v) max_bet then
      Err (MessageFormatError "bet"
             ("Bet out of range. min: " +:+ format (VNum min_bet)
              +:+ " max: " +:+ format (VNum max_bet)
              +:+ ", actual: " +:+ format (VFloat v)))
    else Ok (PFloat v).
Proof.
  intros Hv. unfold bet_try, try_except. rewrite Hv. cbn [mbind res_bind].
  destruct (num_eqb _ _); [done|]. by destruct (_ || _).
Qed.

Lemma float_of_int_err z e : float_of_int z = Err e -> e = OverflowError.
Proof. unfold float_of_int. destruct (binary64_of_Z z); congruence. Qed.

Lemma float_err raw e :
  Py.float float_of_string raw = Err e ->
  e = ValueError \/ e = TypeError \/ e = OverflowError.
Proof.
  destruct raw as [|b|[z|f]|t|l|d]; cbn [Py.float].
  - intros [= <-]. auto.
  - intros ->%float_of_int_err. auto.
  - intros ->%float_of_int_err. auto.
  - done.
  - destruct (float_of_string t); [done|]. intros [= <-]. auto.
  - intros [= <-]. auto.
  - intros [= <-]. auto.
Qed.

Lemma bet_try_unparsed min_bet max_bet reply raw e :
  Py.float float_of_string raw = Err e ->
  bet_try min_bet max_bet reply raw =
    Err (match e with ValueError => AttributeError "bet" | _ => e end).
Proof.
  intros Hraw. unfold bet_try, try_except. rewrite Hraw. cbn [mbind res_bind].
  by destruct (float_err _ _ Hraw) as [->|[->| ->]].
Qed.

(** C2, what the code does: when the [bet] field of the reply is no
    number, no MessageFormatError is raised.  Text that is no number makes
    the handler of ValueError read [message.bet] on a dict, which raises
    AttributeError; a value [float] refuses by type, or an integer too large
    for a float, raises TypeError or OverflowError past the handler. *)
Theorem bet_unparsable_escapes min_bet max_bet opening timeout s pings reply rest raw e :
  send_fails (_channel s) = false ->
  inbox (_channel s) = (EvMessage <$> pings) ++ EvMessage reply :: rest ->
  Forall is_ping pings ->
  reply !! "msg_id" = Some (VStr "bet") ->
  num_eqb max_bet (PInt (-1)) = false ->
  reply !! "bet" = Some raw ->
  Py.float float_of_string raw = Err e ->
  (bet min_bet max_bet opening timeout s).1 =
    Raise (match e with ValueError => AttributeError "bet" | _ => e end) /\
  forall attribute desc,
    (bet min_bet max_bet opening timeout s).1 <> Raise (MessageFormatError attribute desc).
Proof.
  intros Hsend Hin Hp Hid Hmax Hraw He.
  rewrite (bet_run _ _ _ _ _ _ _ _ Hsend Hin Hp Hid), Hmax, Hraw. cbn [fst].
  rewrite (bet_try_unparsed _ _ _ _ _ He). split; [done|].
  intros attribute desc. by destruct (float_err _ _ He) as [->|[->| ->]].
Qed.

(** C3, as the code has it: when [max_bet == -1], a reply whose [msg_id] is
    "bet" makes [bet] return [-1] whatever else the reply holds: its [bet]
    field is not looked at. *)
Theorem bet_not_required min_bet max_bet opening timeout s pings reply rest :
  send_fails (_channel s) = false ->
  inbox (_channel s) = (EvMessage <$> pings) ++ EvMessage reply :: rest ->
  Forall is_ping pings ->
  reply !! "msg_id" = Some (VStr "bet") ->
  num_eqb max_bet (PInt (-1)) = true ->
  bet min_bet max_bet opening timeout s =
    (Ret (PInt (-1)),
     received (S (length pings)) timeout
       (sent (bet_request min_bet max_bet opening timeout) s)).
Proof.
  intros Hsend Hin Hp Hid Hmax.
  by rewrite (bet_run _ _ _ _ _ _ _ _ Hsend Hin Hp Hid), Hmax.
Qed.

(** C7: with [max_bet] other than [-1], a reply with [msg_id] "bet" whose
    [bet] field [float] reads as [v]: when [min_bet <= v <= max_bet] the turn
    returns [v]; when [v < min_bet] or [v > max_bet], and [v] is not [-1.0],
    it raises MessageFormatError on [bet] with a description that gives
    [min_bet], [max_bet] and [v].  So the reply "30" within 10 and 50 returns
    30.0, and the reply "5" is refused. *)
Theorem bet_within_bounds min_bet max_bet opening timeout s pings reply rest raw v :
  send_fails (_channel s) = false ->
  inbox (_channel s) = (EvMessage <$> pings) ++ EvMessage reply :: rest ->
  Forall is_ping pings ->
  reply !! "msg_id" = Some (VStr "bet") ->
  num_eqb max_bet (PInt (-1)) = false ->
  reply !! "bet" = Some raw ->
  Py.float float_of_string raw = Ok v ->
  (num_leb min_bet (PFloat v) = true -> num_leb (PFloat v) max_bet = true ->
   (bet min_bet max_bet opening timeout s).1 = Ret (PFloat v)) /\
  (num_ltb (PFloat v) min_bet = true \/ num_gtb (PFloat v) max_bet = true ->
   num_eqb (PFloat v) (PFloat minus_one) = false ->
   (bet min_bet max_bet opening timeout s).1 =
     Raise (MessageFormatError "bet"
              ("Bet out of range. min: " +:+ format (VNum min_bet)
               +:+ " max: " +:+ format (VNum max_bet)
               +:+ ", actual: " +:+ format (VFloat v)))).
Proof.
  intros Hsend Hin Hp Hid Hmax Hraw Hv.
  rewrite (bet_run _ _ _ _ _ _ _ _ Hsend Hin Hp Hid), Hmax, Hraw. cbn [fst].
  rewrite (bet_try_parsed _ _ _ _ _ Hv). split.
  - intros Hmin%num_leb_not_ltb Hle%num_leb_not_gtb. rewrite Hmin, Hle.
    destruct (num_eqb (PFloat v) (PFloat minus_one)); reflexivity.
  - intros Hout ->. apply orb_true_iff in Hout. by rewrite Hout.
Qed.

(** C8: with [max_bet] other than [-1], a reply whose [bet] field reads
    as [-1.0] is a fold: it is returned as it is, whatever [min_bet] and
    [max_bet] are, and nothing is raised. *)
Theorem bet_fold min_bet max_bet opening timeout s pings reply rest raw v :
  send_fails (_channel s) = false ->
  inbox (_channel s) = (EvMessage <$> pings) ++ EvMessage reply :: rest ->
  Forall is_ping pings ->
  reply !! "msg_id" = Some (VStr "bet") ->
  num_eqb max_bet (PInt (-1)) = false ->
  reply !! "bet" = Some raw ->
  Py.float float_of_string raw = Ok v ->
  num_eqb (PFloat v) (PFloat minus_one) = true ->
  bet min_bet max_bet opening timeout s =
    (Ret (PFloat v),
     received (S (length pings)) timeout
       (sent (bet_request min_bet max_bet opening timeout) s)).
Proof.
  intros Hsend Hin Hp Hid Hmax Hraw Hv Hfold.
  rewrite (bet_run _ _ _ _ _ _ _ _ Hsend Hin Hp Hid), Hmax, Hraw.
  by rewrite (bet_try_parsed _ _ _ _ _ Hv), Hfold.
Qed.

(** ** Keep-alives ahead of the reply *)

Lemma log_frame_bind {A B} t (m : M A) (f : A -> M B) :
  log_frame t m -> (forall a, log_frame t (f a)) -> log_frame t (m ≫= f).
Proof.
  intros Hm Hf n s. unfold mbind, M_bind. rewrite Hm.
  destruct (m s) as [[a| |] s1]; [apply Hf|done..].
Qed.

Lemma log_frame_pure {A} t (r : outcome A) : log_frame t (fun s => (r, s)).
Proof. by intros n s. Qed.

Lemma deadlines_swap (l : list (option Z)) n t :
  (l ++ replicate n t) ++ [t] = (l ++ [t]) ++ replicate n t.
Proof.
  rewrite <- !(assoc_L (++)). f_equal. simpl. symmetry. apply replicate_cons_app.
Qed.

Lemma log_frame_recv t : log_frame t (recv_message t).
Proof.
  intros n [? ? ? ? ? [inb ? ? ? dl ?] ? ?].
  unfold recv_message, on_channel, Channel.recv_message, logged, with_channel. simpl.
  rewrite deadlines_swap.
  destruct inb as [|[m| |] rest]; [by destruct t|done..].
Qed.

Lemma log_frame_send t m : log_frame t (send_message m).
Proof.
  intros n [? ? ? ? ? [? ? fails ? ? ?] ? ?].
  unfold send_message, on_channel, Channel.send_message, logged, with_channel. simpl.
  by destruct fails.
Qed.

Lemma log_frame_await_turns t turns : log_frame t (await_reply_turns turns t).
Proof.
  induction turns as [|turns IH]; cbn [await_reply_turns]; [apply log_frame_pure|].
  apply log_frame_bind; [apply log_frame_recv|]. intros m.
  destruct (m !! "msg_id") as [id|]; [|apply log_frame_pure].
  destruct (negb _); [apply log_frame_pure|apply IH].
Qed.

Lemma log_frame_await t : log_frame t (await_reply t).
Proof. intros n s. unfold await_reply. apply log_frame_await_turns. Qed.

Lemma log_frame_change_cards t : log_frame t (change_cards t).
Proof.
  unfold change_cards. apply log_frame_bind; [apply log_frame_await|]. intros m.
  apply log_frame_bind; [apply log_frame_pure|]. intros _.
  destruct (m !! "cards"); [|apply log_frame_pure].
  apply log_frame_bind; [by intros n s|]. intros hand. apply log_frame_pure.
Qed.

Lemma log_frame_bet t min_bet max_bet opening : log_frame t (bet min_bet max_bet opening t).
Proof.
  unfold bet. apply log_frame_bind; [apply log_frame_send|]. intros _.
  apply log_frame_bind; [apply log_frame_await|]. intros m.
  apply log_frame_bind; [apply log_frame_pure|]. intros _.
  destruct (num_eqb _ _); [apply log_frame_pure|].
  destruct (m !! "bet"); apply log_frame_pure.
Qed.

Lemma same_deadline_bind {A B} t (m : M A) (f : A -> M B) :
  same_deadline t m -> (forall a, same_deadline t (f a)) -> same_deadline t (m ≫= f).
Proof.
  intros Hm Hf s. unfold mbind, M_bind. destruct (Hm s) as [k Hk].
  destruct (m s) as [[a| |] s1]; [|by exists k..].
  destruct (Hf a s1) as [k' Hk']. exists (k + k').
  rewrite Hk'. simpl in Hk. by rewrite Hk, replicate_add, (assoc_L (++)).
Qed.

Lemma same_deadline_pure {A} t (r : outcome A) : same_deadline t (fun s => (r, s)).
Proof. intros s. exists 0. simpl. by rewrite (right_id_L [] (++)). Qed.

Lemma same_deadline_recv t : same_deadline t (recv_message t).
Proof.
  intros s. exists 1. unfold recv_message, on_channel, Channel.recv_message.
  by destruct (inbox (_channel s)) as [|[m| |] rest].
Qed.

Lemma same_deadline_send t m : same_deadline t (send_message m).
Proof.
  intros s. exists 0. unfold send_message, on_channel, Channel.send_message.
  destruct (send_fails (_channel s)); simpl; by rewrite (right_id_L [] (++)).
Qed.

Lemma same_deadline_await_turns t turns : same_deadline t (await_reply_turns turns t).
Proof.
  induction turns as [|turns IH]; cbn [await_reply_turns]; [apply same_deadline_pure|].
  apply same_deadline_bind; [apply same_deadline_recv|]. intros m.
  destruct (m !! "msg_id") as [id|]; [|apply same_deadline_pure].
  destruct (negb _); [apply same_deadline_pure|apply IH].
Qed.

Lemma same_deadline_await t : same_deadline t (await_reply t).
Proof. intros s. unfold await_reply. apply same_deadline_await_turns. Qed.

Lemma same_deadline_change_cards t : same_deadline t (change_cards t).
Proof.
  unfold change_cards. apply same_deadline_bind; [apply same_deadline_await|]. intros m.
  apply same_deadline_bind; [apply same_deadline_pure|]. intros _.
  destruct (m !! "cards"); [|apply same_deadline_pure].
  apply same_deadline_bind; [|intros hand; apply same_deadline_pure].
  intros s. exists 0. simpl. by rewrite (right_id_L [] (++)).
Qed.

Lemma same_deadline_bet t min_bet max_bet opening :
  same_deadline t (bet min_bet max_bet opening t).
Proof.
  unfold bet. apply same_deadline_bind; [apply same_deadline_send|]. intros _.
  apply same_deadline_bind; [apply same_deadline_await|]. intros m.
  apply same_deadline_bind; [apply same_deadline_pure|]. intros _.
  destruct (num_eqb _ _); [apply same_deadline_pure|].
  destruct (m !! "bet"); apply same_deadline_pure.
Qed.

Lemma received_incoming t pings s :
  received (length pings) t (incoming (EvMessage <$> pings) s) = logged (length pings) t s.
Proof.
  unfold received, incoming, logged, with_channel.
  cbn [_channel inbox deadlines outbox send_fails close_fails close_calls
       _id _name _money _cards _score _allowed_to_open _logger].
  by rewrite <- (length_fmap EvMessage pings), drop_app_length.
Qed.

Lemma await_reply_incoming t pings s :
  Forall is_ping pings ->
  await_reply t (incoming (EvMessage <$> pings) s) =
    await_reply t (logged (length pings) t s).
Proof.
  intros Hp.
  rewrite (await_reply_pings t pings _ (inbox (_channel s))); [|done..].
  by rewrite received_incoming.
Qed.

Lemma bind_state_eq {A B} (m : M A) (f : A -> M B) s1 s2 :
  m s1 = m s2 -> (m ≫= f) s1 = (m ≫= f) s2.
Proof. unfold mbind, M_bind. by intros ->. Qed.

Lemma change_cards_incoming t pings s :
  Forall is_ping pings ->
  change_cards t (incoming (EvMessage <$> pings) s) =
    change_cards t (logged (length pings) t s).
Proof. intros Hp. by apply bind_state_eq, await_reply_incoming. Qed.

Lemma bet_incoming t min_bet max_bet opening pings s :
  Forall is_ping pings ->
  (bet min_bet max_bet opening t (incoming (EvMessage <$> pings) s)).1 =
    (bet min_bet max_bet opening t (logged (length pings) t s)).1.
Proof.
  intros Hp. unfold bet.
  set (request := bet_request min_bet max_bet opening t).
  set (rest := await_reply t ≫= _).
  change ((send_message request ≫= fun _ => rest) ?s0)
    with (match send_message request s0 with
          | (Ret a, s') => rest s'
          | (Raise e, s') => (Raise e, s')
          | (Block, s') => (Block, s')
          end).
  destruct (send_fails (_channel s)) eqn:Hsend.
  - by rewrite !send_message_fails.
  - rewrite !send_message_ok by done.
    change (sent request (incoming ?evs s)) with (incoming evs (sent request s)).
    change (sent request (logged ?n t s)) with (logged n t (sent request s)).
    f_equal. by apply bind_state_eq, await_reply_incoming.
Qed.

(** C9: keep-alive messages ahead of the reply change nothing: with any
    number of them first, [change_cards] and [bet] end with the same value
    or the same error as without them, and every receive they make, those
    that meet a keep-alive too, carries the deadline the caller gave. *)
Theorem leading_pings_skipped timeout min_bet max_bet opening pings s :
  Forall is_ping pings ->
  change_cards timeout (incoming (EvMessage <$> pings) s) =
    (let '(r, s') := change_cards timeout s in (r, logged (length pings) timeout s')) /\
  (bet min_bet max_bet opening timeout (incoming (EvMessage <$> pings) s)).1 =
    (bet min_bet max_bet opening timeout s).1 /\
  (exists k, deadlines (_channel (change_cards timeout (incoming (EvMessage <$> pings) s)).2) =
             deadlines (_channel s) ++ replicate k timeout) /\
  (exists k, deadlines (_channel (bet min_bet max_bet opening timeout
                                    (incoming (EvMessage <$> pings) s)).2) =
             deadlines (_channel s) ++ replicate k timeout).
Proof.
  intros Hp. split_and!.
  - rewrite (change_cards_incoming _ _ _ Hp). apply log_frame_change_cards.
  - rewrite (bet_incoming _ _ _ _ _ _ Hp), log_frame_bet.
    by destruct (bet min_bet max_bet opening timeout s).
  - apply (same_deadline_change_cards timeout (incoming (EvMessage <$> pings) s)).
  - apply (same_deadline_bet timeout min_bet max_bet opening (incoming (EvMessage <$> pings) s)).
Qed.

(** ** The keep-alive *)

Lemma validate_ping m :
  validate_msg_id m "ping" = Ok tt <-> is_ping m.
Proof.
  unfold validate_msg_id, is_ping. destruct (m !! "msg_id") as [id|]; [|done].
  destruct (Py.eqb id (VStr "ping")) eqn:Hid.
  - apply eqb_str in Hid as ->. done.
  - split; [done|]. intros [= ->]. by rewrite (proj2 (eqb_str _ _) eq_refl) in Hid.
Qed.

Lemma validate_err m expected e :
  validate_msg_id m expected = Err e -> exists desc, e = MessageFormatError "msg_id" desc.
Proof.
  unfold validate_msg_id. destruct (m !! "msg_id") as [id|]; [|(forget_collaborators; naive_solver)].
  destruct (Py.eqb id (VStr expected)); (forget_collaborators; naive_solver).
Qed.

Lemma ping_pong_run now s :
  (ping true now s).1 = Ret (if ping_failure s is Some _ then false else true) /\
  close_calls (_channel (ping true now s).2) =
    (if ping_failure s is Some _ then S (close_calls (_channel s))
     else close_calls (_channel s)) /\
  _logger (ping true now s).2 =
    _logger s ++ (if ping_failure s is Some e then [e] else []).
Proof.
  destruct s as [? ? ? ? ? [inb out sf cf dl cc] ? lg].
  unfold ping_failure, ping, try_catch, mbind, M_bind, send_message, recv_message,
    disconnect, try_catch, logger_error, on_channel, Channel.send_message,
    Channel.recv_message, Channel.close, lift, with_channel.
  cbn -[validate_msg_id singletonM].
  destruct sf; [by destruct cf|].
  destruct inb as [|[m| |] rest]; [by destruct cf| |by destruct cf..].
  cbn -[validate_msg_id singletonM].
  destruct (validate_msg_id m "ping") as [[]|e] eqn:Hval; cbn -[singletonM].
  - by rewrite (right_id_L [] (++)).
  - destruct (validate_err _ _ _ Hval) as [desc ->]. by destruct cf.
Qed.

(** C10: [ping(pong=True)] never raises and never waits for ever.  When
    the send fails or the receive meets a transport failure (ChannelError),
    when no reply comes within the deadline (MessageTimeout), and when the
    reply is not a "ping" message (MessageFormatError), it logs the error,
    closes the channel and returns false; when the message is sent and a
    "ping" message comes back it returns true and closes nothing. *)
Theorem ping_pong_never_raises now s :
  (exists b, (ping true now s).1 = Ret b) /\
  (send_fails (_channel s) = true \/
   (exists rest, inbox (_channel s) = EvError :: rest) \/
   inbox (_channel s) = [] \/
   (exists rest, inbox (_channel s) = EvTimeout :: rest) \/
   (exists m rest, inbox (_channel s) = EvMessage m :: rest /\ ~ is_ping m) ->
   (ping true now s).1 = Ret false /\
   close_calls (_channel (ping true now s).2) = S (close_calls (_channel s)) /\
   exists e, _logger (ping true now s).2 = _logger s ++ [e] /\
     (e = ChannelError \/ e = MessageTimeout \/
      exists desc, e = MessageFormatError "msg_id" desc)) /\
  (send_fails (_channel s) = false ->
   (exists m rest, inbox (_channel s) = EvMessage m :: rest /\ is_ping m) ->
   (ping true now s).1 = Ret true /\
   close_calls (_channel (ping true now s).2) = close_calls (_channel s)).
Proof.
  destruct (ping_pong_run now s) as (Hret & Hclose & Hlog). split_and!.
  - eauto.
  - intros Hcase.
    assert (exists e, ping_failure s = Some e /\
              (e = ChannelError \/ e = MessageTimeout \/
               exists desc, e = MessageFormatError "msg_id" desc)) as (e & He & Hkind).
    { unfold ping_failure. destruct (send_fails (_channel s)); [by eauto 6|].
      destruct Hcase as [?|[[rest ->]|[->|[[rest ->]|(m & rest & -> & Hm)]]]];
        [done|by eauto 6..|].
      destruct (validate_msg_id m "ping") as [[]|e] eqn:Hval.
      - by apply validate_ping in Hval.
      - exists e. split; [done|]. right; right. by eapply validate_err. }
    rewrite He in Hret, Hclose, Hlog. eauto 6.
  - intros Hsend (m & rest & Hin & Hm).
    assert (ping_failure s = None) as He.
    { unfold ping_failure. rewrite Hsend, Hin.
      by rewrite (proj2 (validate_ping m) Hm). }
    rewrite He in Hret, Hclose. done.
Qed.

(** ** The deal notification *)

(** C1: [set_cards] stores the new hand and score, then sets
    [allowed_to_open] to [min_opening_score.cmp(new score) >= 0], stores it
    and sends it in the set-cards message.  With [Score.cmp] read as the
    spec reads it, the flag is true exactly when the new score meets or
    exceeds [min_opening_score], ties included, and false for every score
    that ranks strictly below it. *)
Theorem set_cards_allowed_to_open meets cards score min_opening_score s :
  cmp_ranking meets ->
  send_fails (_channel s) = false ->
  exists allowed message s',
    set_cards cards score min_opening_score s = (Ret tt, s') /\
    allowed = (0 <=? cmp min_opening_score score)%Z /\
    (allowed = true <-> meets score min_opening_score) /\
    (meets min_opening_score score /\ ~ meets score min_opening_score -> allowed = false) /\
    _cards s' = cards /\ _score s' = Some score /\
    _allowed_to_open s' = Some allowed /\
    outbox (_channel s') = outbox (_channel s) ++ [message] /\
    message !! "msg_id" = Some (VStr "set-cards") /\
    message !! "cards" = Some (VList (card_dto <$> cards)) /\
    message !! "score" = Some (score_dto score) /\
    message !! "allowed_to_open" = Some (VBool allowed).
Proof.
  intros Hcmp Hsend.
  set (allowed := (0 <=? cmp min_opening_score score)%Z).
  assert (allowed = true <-> meets score min_opening_score) as Hallowed.
  { unfold allowed. rewrite Z.leb_le. apply Hcmp. }
  set (dealt := {| _id := _id s; _name := _name s; _money := _money s;
                   _cards := cards; _score := Some score; _channel := _channel s;
                   _allowed_to_open := Some allowed; _logger := _logger s |}).
  set (message := {[ "msg_id" := VStr "set-cards";
                     "cards" := VList (card_dto <$> cards);
                     "score" := score_dto score;
                     "allowed_to_open" := VBool allowed ]} : gmap string value).
  exists allowed, message, (sent message dealt).
  split; [|split_and!; try done].
  - unfold set_cards, mbind, M_bind, Player_set_cards, get_score, get_cards.
    cbn [_score _cards]. by rewrite send_message_ok.
  - intros [_ Hbelow]. apply not_true_is_false. by rewrite Hallowed.
Qed.

(** * Further properties of the adapter *)

(** ** Lifecycle, keep-alive and best-effort send *)

Lemma disconnect_run s : disconnect s = (Ret tt, closed s).
Proof.
  unfold disconnect, try_catch, on_channel, Channel.close, closed.
  by destruct (close_fails (_channel s)).
Qed.

(** X1: [disconnect] never raises, whether or not [close] does: it calls
    [close] once, twice when called twice, and changes nothing else. *)
Theorem disconnect_never_raises s :
  disconnect s = (Ret tt, closed s) /\
  (disconnect ≫= fun _ => disconnect) s = (Ret tt, closed (closed s)).
Proof.
  split; [apply disconnect_run|].
  unfold mbind, M_bind. by rewrite !disconnect_run.
Qed.

(** X2: [try_send_message] never raises: when the transport refuses the
    message it returns false and the adapter is as before, otherwise it
    returns true and the message is the last one sent.  It returns true
    exactly when [send_message] returns, and leaves the adapter as
    [send_message] does. *)
Theorem try_send_message_total m s :
  try_send_message m s =
    (if send_fails (_channel s) then (Ret false, s) else (Ret true, sent m s)) /\
  ((try_send_message m s).1 = Ret true <-> (send_message m s).1 = Ret tt) /\
  (try_send_message m s).2 = (send_message m s).2.
Proof.
  unfold try_send_message, try_catch, mbind, M_bind.
  destruct (send_fails (_channel s)) eqn:Hsend.
  - rewrite send_message_fails by done. by split_and!.
  - rewrite send_message_ok by done. by split_and!.
Qed.

Lemma ping_false_run now s :
  ping false now s =
    (if send_fails (_channel s)
     then (Ret false, closed (logger_error ChannelError s).2)
     else (Ret true, sent {[ "msg_id" := VStr "ping" ]} s)).
Proof.
  unfold ping, try_catch, mbind, M_bind.
  destruct (send_fails (_channel s)) eqn:Hsend.
  - rewrite send_message_fails by done. cbn [logger_error snd].
    by rewrite disconnect_run.
  - by rewrite send_message_ok.
Qed.

(** X3: [ping(pong=False)] makes no receive: it returns true when the
    message {"msg_id": "ping"} is sent, and when the send fails it logs the
    ChannelError, closes the channel once and returns false.  A participant
    who never answers is not noticed. *)
Theorem ping_without_pong now s :
  ping false now s =
    (if send_fails (_channel s)
     then (Ret false, closed (logger_error ChannelError s).2)
     else (Ret true, sent {[ "msg_id" := VStr "ping" ]} s)) /\
  inbox (_channel (ping false now s).2) = inbox (_channel s) /\
  deadlines (_channel (ping false now s).2) = deadlines (_channel s).
Proof.
  split; [apply ping_false_run|]. rewrite ping_false_run.
  by destruct (send_fails (_channel s)).
Qed.

(** X4: [ping(pong=True)] whose message is sent makes exactly one receive,
    with the deadline two seconds from now, and takes whatever it meets off
    the channel: a message that is not a "ping" is gone once [ping] has
    returned false on it.  When the send fails nothing is received. *)
Theorem ping_pong_takes_one now s :
  (send_fails (_channel s) = false ->
   inbox (_channel (ping true now s).2) = drop 1 (inbox (_channel s)) /\
   deadlines (_channel (ping true now s).2)
     = deadlines (_channel s) ++ [Some (now + 2)%Z] /\
   outbox (_channel (ping true now s).2)
     = outbox (_channel s) ++ [{[ "msg_id" := VStr "ping" ]}]) /\
  (send_fails (_channel s) = true ->
   inbox (_channel (ping true now s).2) = inbox (_channel s) /\
   deadlines (_channel (ping true now s).2) = deadlines (_channel s) /\
   outbox (_channel (ping true now s).2) = outbox (_channel s)) /\
  participant (ping true now s).2 = participant s.
Proof.
  destruct s as [? ? ? ? ? [inb out sf cf dl cc] ? lg].
  unfold ping, try_catch, mbind, M_bind, send_message, recv_message,
    disconnect, try_catch, logger_error, on_channel, Channel.send_message,
    Channel.recv_message, Channel.close, lift, with_channel, participant.
  cbn -[validate_msg_id singletonM].
  destruct sf; [by destruct cf|].
  destruct inb as [|[m| |] rest]; [by destruct cf| |by destruct cf..].
  cbn -[validate_msg_id singletonM].
  destruct (validate_msg_id m "ping") as [[]|e] eqn:Hval; cbn -[singletonM].
  - by rewrite drop_0.
  - destruct (validate_err _ _ _ Hval) as [desc ->]. rewrite drop_0. by destruct cf.
Qed.

(** X5: after [update_channel(channel)] the adapter talks on the new channel
    and keeps what it held: on a channel whose transport works a
    [ping(pong=False)] returns true, however the former channel failed, its
    message is the one more that channel has sent, and hand, score, flag and
    log are those of before. *)
Theorem update_channel_then_ping channel now s :
  send_fails channel = false ->
  (update_channel channel ≫= fun _ => ping false now) s =
    (Ret true, sent {[ "msg_id" := VStr "ping" ]} (with_channel channel s)) /\
  participant ((update_channel channel ≫= fun _ => ping false now) s).2 = participant s /\
  _logger ((update_channel channel ≫= fun _ => ping false now) s).2 = _logger s.
Proof.
  intros Hsend.
  assert ((update_channel channel ≫= fun _ => ping false now) s =
          (Ret true, sent {[ "msg_id" := VStr "ping" ]} (with_channel channel s))) as ->.
  { unfold mbind at 1, M_bind, update_channel.
    rewrite (ping_false_run now (with_channel channel s)).
    cbn [_channel with_channel]. by rewrite Hsend. }
  done.
Qed.

(** ** The deal notification when the send fails, and the deal before the
    discard exchange *)

(** X6: [set_cards] mutates before it sends: when the transport refuses the
    set-cards message, ChannelError is raised and yet the new hand, the new
    score and the new [allowed_to_open] are in place; nothing was sent. *)
Theorem set_cards_send_fails cards score min_opening_score s :
  send_fails (_channel s) = true ->
  (set_cards cards score min_opening_score s).1 = Raise ChannelError /\
  _cards (set_cards cards score min_opening_score s).2 = cards /\
  _score (set_cards cards score min_opening_score s).2 = Some score /\
  _allowed_to_open (set_cards cards score min_opening_score s).2
    = Some (0 <=? cmp min_opening_score score)%Z /\
  _channel (set_cards cards score min_opening_score s).2 = _channel s.
Proof using Type.
  intros Hsend.
  unfold set_cards, mbind, M_bind, Player_set_cards, get_score, get_cards.
  cbn [_score _cards]. rewrite send_message_fails by done. done.
Qed.

Lemma set_cards_run cards score min_opening_score s :
  send_fails (_channel s) = false ->
  set_cards cards score min_opening_score s =
    (Ret tt,
     sent {[ "msg_id" := VStr "set-cards";
             "cards" := VList (card_dto <$> cards);
             "score" := score_dto score;
             "allowed_to_open" := VBool (0 <=? cmp min_opening_score score)%Z ]}
       {| _id := _id s; _name := _name s; _money := _money s;
          _cards := cards; _score := Some score; _channel := _channel s;
          _allowed_to_open := Some (0 <=? cmp min_opening_score score)%Z;
          _logger := _logger s |}).
Proof using Type.
  intros Hsend.
  unfold set_cards, mbind, M_bind, Player_set_cards, get_score, get_cards.
  cbn [_score _cards]. by rewrite send_message_ok.
Qed.

(** X7: a deal replaces the hand: the discard exchange that follows
    [set_cards] resolves the reply against the cards just dealt, whatever
    hand was held before, and [set_cards] takes nothing off the channel. *)
Theorem set_cards_then_change_cards cards score min_opening_score timeout
    s pings reply rest raw :
  send_fails (_channel s) = false ->
  inbox (_channel s) = (EvMessage <$> pings) ++ EvMessage reply :: rest ->
  Forall is_ping pings ->
  reply !! "msg_id" = Some (VStr "change-cards") ->
  reply !! "cards" = Some raw ->
  ((set_cards cards score min_opening_score ≫= fun _ => change_cards timeout) s).1
    = outcome_of (change_cards_try cards raw) /\
  inbox (_channel (set_cards cards score min_opening_score s).2) = inbox (_channel s).
Proof using Type.
  intros Hsend Hin Hp Hid Hraw. unfold mbind at 1, M_bind.
  rewrite (set_cards_run _ _ _ _ Hsend). split; [|done].
  by rewrite (change_cards_run timeout _ pings reply rest raw).
Qed.

(** ** The snapshot *)

(** X8: [dto] reads and changes nothing.  Without the score it succeeds in
    every state, before any deal too, with the score null; with the score
    it gives the serialized score once there is one.  Its keys are id,
    name, money and score: it never carries a card of the hand. *)
Theorem dto_snapshot with_score s :
  (dto with_score s).2 = s /\
  dto false s =
    (Ret {[ "id" := _id s; "name" := _name s; "money" := _money s; "score" := VNone ]}, s) /\
  (forall sc, _score s = Some sc ->
     dto true s =
       (Ret {[ "id" := _id s; "name" := _name s; "money" := _money s;
               "score" := score_dto sc ]}, s)) /\
  (forall d, (dto with_score s).1 = Ret d ->
     dom d = ({[ "id"; "name"; "money"; "score" ]} : gset string)).
Proof using Type.
  unfold dto, mbind, M_bind, get_id, get_name, get_money, get_score, mret, M_ret.
  split_and!.
  - destruct with_score; [|done]. by destruct (_score s).
  - done.
  - by intros sc ->.
  - intros d. destruct with_score; [destruct (_score s); [|done]|];
      intros [= <-]; by rewrite !dom_insert_L, dom_singleton_L.
Qed.

(** ** What an operation leaves of the adapter *)

Lemma received_participant n t s : participant (received n t s) = participant s.
Proof. done. Qed.

Lemma recv_message_received t s : (recv_message t s).2 = received 1 t s.
Proof.
  unfold recv_message, on_channel, Channel.recv_message, received.
  destruct (inbox (_channel s)) as [|[m| |] rest]; cbn [snd drop]; by rewrite ?drop_0.
Qed.

(** The loop does nothing but receive, at least once. *)
Lemma await_reply_turns_received t turns :
  forall s, exists k,
    (await_reply_turns turns t s).2 = received k t s /\ (turns <> 0 -> 1 <= k).
Proof.
  induction turns as [|turns IH]; intros s; cbn [await_reply_turns].
  - exists 0. by rewrite received_0.
  - unfold mbind, M_bind. pose proof (recv_message_received t s) as Hrecv.
    destruct (recv_message t s) as [[m| |] s1]; cbn [snd] in Hrecv; subst s1;
      [|by exists 1..].
    destruct (m !! "msg_id") as [id|]; [|by exists 1].
    destruct (negb _); [by exists 1|].
    destruct (IH (received 1 t s)) as (k & Hk & _). exists (1 + k).
    rewrite Hk, received_received. split; [done|lia].
Qed.

Lemma await_reply_received t s :
  exists k, 1 <= k /\ (await_reply t s).2 = received k t s.
Proof.
  unfold await_reply.
  destruct (await_reply_turns_received t (S (length (inbox (_channel s)))) s)
    as (k & Hk & Hpos).
  exists k. split; [by apply Hpos|done].
Qed.

Lemma await_reply_raise t s e :
  (await_reply t s).1 = Raise e ->
  e = MessageTimeout \/ e = ChannelError \/
  e = MessageFormatError "msg_id" "Attribute missing".
Proof.
  unfold await_reply. generalize (S (length (inbox (_channel s)))). intros turns.
  revert s. induction turns as [|turns IH]; intros s; cbn [await_reply_turns]; [done|].
  unfold mbind, M_bind, recv_message, on_channel, Channel.recv_message.
  destruct (inbox (_channel s)) as [|[m| |] rest].
  - destruct t; cbn [fst]; [|done]. intros [= <-]. auto.
  - destruct (m !! "msg_id") as [id|]; [|intros [= <-]; auto].
    destruct (negb _); [done|]. apply IH.
  - intros [= <-]. auto.
  - intros [= <-]. auto.
Qed.

Lemma change_cards_received timeout s :
  exists k, 1 <= k /\ (change_cards timeout s).2 = received k timeout s.
Proof.
  destruct (await_reply_received timeout s) as (k & Hk & Hloop).
  exists k. split; [done|].
  unfold change_cards, mbind at 1 2 3, M_bind.
  destruct (await_reply timeout s) as [[m| |] s1]; cbn [snd] in Hloop; subst s1; [|done..].
  destruct (validate_msg_id m "change-cards") as [[]|]; [|done]. cbn [lift outcome_of].
  by destruct (m !! "cards").
Qed.

Lemma bet_received min_bet max_bet opening timeout s :
  send_fails (_channel s) = false ->
  exists k, 1 <= k /\
    (bet min_bet max_bet opening timeout s).2
      = received k timeout (sent (bet_request min_bet max_bet opening timeout) s).
Proof.
  intros Hsend. set (request := bet_request min_bet max_bet opening timeout).
  destruct (await_reply_received timeout (sent request s)) as (k & Hk & Hloop).
  exists k. split; [done|].
  unfold bet, mbind at 1 2 3, M_bind. rewrite send_message_ok by done. fold request.
  destruct (await_reply timeout (sent request s)) as [[m| |] s1];
    cbn [snd] in Hloop; subst s1; [|done..].
  destruct (validate_msg_id m "bet") as [[]|]; [|done]. cbn [lift outcome_of].
  destruct (num_eqb _ _); [done|]. by destruct (m !! "bet").
Qed.

(** X9: [change_cards] does nothing to the adapter but receive, at least
    once and always with the caller's deadline: it sends nothing, never
    closes the channel, writes nothing to the log, and leaves the hand
    (the cards it returns included), the score and [allowed_to_open] as
    they were. *)
Theorem change_cards_only_receives timeout s :
  exists k, 1 <= k /\
    inbox (_channel (change_cards timeout s).2) = drop k (inbox (_channel s)) /\
    deadlines (_channel (change_cards timeout s).2)
      = deadlines (_channel s) ++ replicate k timeout /\
    outbox (_channel (change_cards timeout s).2) = outbox (_channel s) /\
    close_calls (_channel (change_cards timeout s).2) = close_calls (_channel s) /\
    participant (change_cards timeout s).2 = participant s /\
    _logger (change_cards timeout s).2 = _logger s.
Proof.
  destruct (change_cards_received timeout s) as (k & Hk & ->). by exists k.
Qed.

(** X10: [bet] first sends its request.  When the send fails, ChannelError
    is raised at once: nothing is received and the adapter is as before.
    Otherwise the request is the one message sent, whatever the turn comes
    to, and the rest is receiving, at least once and with the caller's
    deadline; the channel is never closed and hand, score, flag and log are
    as before. *)
Theorem bet_sends_then_receives min_bet max_bet opening timeout s :
  (send_fails (_channel s) = true ->
   bet min_bet max_bet opening timeout s = (Raise ChannelError, s)) /\
  (send_fails (_channel s) = false ->
   exists k, 1 <= k /\
     inbox (_channel (bet min_bet max_bet opening timeout s).2)
       = drop k (inbox (_channel s)) /\
     deadlines (_channel (bet min_bet max_bet opening timeout s).2)
       = deadlines (_channel s) ++ replicate k timeout /\
     outbox (_channel (bet min_bet max_bet opening timeout s).2)
       = outbox (_channel s) ++ [bet_request min_bet max_bet opening timeout] /\
     close_calls (_channel (bet min_bet max_bet opening timeout s).2)
       = close_calls (_channel s) /\
     participant (bet min_bet max_bet opening timeout s).2 = participant s /\
     _logger (bet min_bet max_bet opening timeout s).2 = _logger s).
Proof.
  split; intros Hsend.
  - unfold bet, mbind at 1, M_bind. by rewrite send_message_fails.
  - destruct (bet_received min_bet max_bet opening timeout s Hsend) as (k & Hk & ->).
    by exists k.
Qed.

(** ** What the receive loop meets *)

(** The loop by the head of the inbox. *)
Lemma await_reply_head t s :
  await_reply t s =
    match inbox (_channel s) with
    | [] => (match t with Some _ => Raise MessageTimeout | None => Block end,
             received 1 t s)
    | EvTimeout :: _ => (Raise MessageTimeout, received 1 t s)
    | EvError :: _ => (Raise ChannelError, received 1 t s)
    | EvMessage m :: _ =>
        match m !! "msg_id" with
        | None => (Raise (MessageFormatError "msg_id" "Attribute missing"),
                   received 1 t s)
        | Some id =>
            if negb (Py.eqb id (VStr "ping")) then (Ret m, received 1 t s)
            else await_reply t (received 1 t s)
        end
    end.
Proof.
  rewrite await_reply_unfold. unfold mbind, M_bind.
  pose proof (recv_message_received t s) as Hs.
  destruct (inbox (_channel s)) as [|[m| |] rest] eqn:Hin.
  - unfold recv_message, on_channel, Channel.recv_message in *. rewrite Hin in *.
    cbn [snd] in Hs. rewrite Hs. by destruct t.
  - rewrite (recv_message_msg _ _ _ _ Hin). destruct (m !! "msg_id"); [|done].
    by destruct (negb _).
  - unfold recv_message, on_channel, Channel.recv_message in *. rewrite Hin in *.
    cbn [snd] in Hs. by rewrite Hs.
  - unfold recv_message, on_channel, Channel.recv_message in *. rewrite Hin in *.
    cbn [snd] in Hs. by rewrite Hs.
Qed.

(** The loop after keep-alives, by what follows them. *)
Lemma await_reply_after t s pings evs :
  inbox (_channel s) = (EvMessage <$> pings) ++ evs -> Forall is_ping pings ->
  await_reply t s =
    match evs with
    | [] => (match t with Some _ => Raise MessageTimeout | None => Block end,
             received (S (length pings)) t s)
    | EvTimeout :: _ => (Raise MessageTimeout, received (S (length pings)) t s)
    | EvError :: _ => (Raise ChannelError, received (S (length pings)) t s)
    | EvMessage m :: _ =>
        match m !! "msg_id" with
        | None => (Raise (MessageFormatError "msg_id" "Attribute missing"),
                   received (S (length pings)) t s)
        | Some id =>
            if negb (Py.eqb id (VStr "ping")) then (Ret m, received (S (length pings)) t s)
            else await_reply t (received (S (length pings)) t s)
        end
    end.
Proof.
  intros Hin Hp. rewrite (await_reply_pings _ _ _ _ Hin Hp), await_reply_head.
  rewrite received_inbox, Hin, <- (length_fmap EvMessage pings), drop_app_length.
  rewrite received_received, length_fmap, Nat.add_1_r.
  destruct evs as [|[m| |] rest]; [done| |done..].
  destruct (m !! "msg_id"); [|done]. by destruct (negb _).
Qed.

Lemma not_ping_id m id :
  ~ is_ping m -> m !! "msg_id" = Some id -> negb (Py.eqb id (VStr "ping")) = true.
Proof.
  intros Hm Hid. apply negb_true_iff, not_true_is_false. intros Heq%eqb_str.
  apply Hm. unfold is_ping. by rewrite Hid, Heq.
Qed.

Lemma bet_start min_bet max_bet opening timeout s :
  send_fails (_channel s) = false ->
  bet min_bet max_bet opening timeout s =
    match await_reply timeout (sent (bet_request min_bet max_bet opening timeout) s) with
    | (Ret message, s1) =>
        match validate_msg_id message "bet" with
        | Ok _ =>
            if num_eqb max_bet (PInt (-1)) then (Ret (PInt (-1)), s1)
            else match message !! "bet" with
                 | None => (Raise (MessageFormatError "bet" "Attribute is missing"), s1)
                 | Some raw => (outcome_of (bet_try min_bet max_bet message raw), s1)
                 end
        | Err e => (Raise e, s1)
        end
    | (Raise e, s1) => (Raise e, s1)
    | (Block, s1) => (Block, s1)
    end.
Proof.
  intros Hsend. unfold bet, mbind at 1 2 3, M_bind. rewrite send_message_ok by done.
  destruct (await_reply _ _) as [[m| |] s1]; [|done..].
  destruct (validate_msg_id m "bet") as [[]|]; [|done]. cbn [lift outcome_of].
  destruct (num_eqb _ _); [done|]. by destruct (m !! "bet").
Qed.

Lemma change_cards_start timeout s :
  change_cards timeout s =
    match await_reply timeout s with
    | (Ret message, s1) =>
        match validate_msg_id message "change-cards" with
        | Ok _ =>
            match message !! "cards" with
            | None => (Raise (MessageFormatError "cards" "Attribute is missing"), s1)
            | Some raw => (outcome_of (change_cards_try (_cards s1) raw), s1)
            end
        | Err e => (Raise e, s1)
        end
    | (Raise e, s1) => (Raise e, s1)
    | (Block, s1) => (Block, s1)
    end.
Proof.
  unfold change_cards, mbind at 1 2 3, M_bind.
  destruct (await_reply _ _) as [[m| |] s1]; [|done..].
  destruct (validate_msg_id m "change-cards") as [[]|]; [|done]. cbn [lift outcome_of].
  by destruct (m !! "cards").
Qed.

(** X11: a first message after the keep-alives that carries no [msg_id] is
    refused by the loop itself, in [change_cards] and in [bet] alike, with
    MessageFormatError on "msg_id". *)
Theorem missing_msg_id_refused timeout min_bet max_bet opening s pings m rest :
  inbox (_channel s) = (EvMessage <$> pings) ++ EvMessage m :: rest ->
  Forall is_ping pings ->
  m !! "msg_id" = None ->
  (change_cards timeout s).1 = Raise (MessageFormatError "msg_id" "Attribute missing") /\
  (send_fails (_channel s) = false ->
   (bet min_bet max_bet opening timeout s).1
     = Raise (MessageFormatError "msg_id" "Attribute missing")).
Proof.
  intros Hin Hp Hm. split.
  - rewrite change_cards_start, (await_reply_after _ _ _ _ Hin Hp). by rewrite Hm.
  - intros Hsend. rewrite bet_start by done.
    rewrite (await_reply_after _ _ pings (EvMessage m :: rest)); [|done..].
    by rewrite Hm.
Qed.

(** X12: a failure of the receive comes out of [change_cards] and [bet] as
    it is, keep-alives before it or not: MessageTimeout when the deadline
    elapses, ChannelError when the transport fails; a participant who sends
    keep-alives and then nothing makes them time out when there is a
    deadline, and wait for ever when there is none. *)
Theorem receive_failures_propagate timeout min_bet max_bet opening s pings rest :
  Forall is_ping pings ->
  (inbox (_channel s) = (EvMessage <$> pings) ++ EvTimeout :: rest ->
   (change_cards timeout s).1 = Raise MessageTimeout /\
   (send_fails (_channel s) = false ->
    (bet min_bet max_bet opening timeout s).1 = Raise MessageTimeout)) /\
  (inbox (_channel s) = (EvMessage <$> pings) ++ EvError :: rest ->
   (change_cards timeout s).1 = Raise ChannelError /\
   (send_fails (_channel s) = false ->
    (bet min_bet max_bet opening timeout s).1 = Raise ChannelError)) /\
  (inbox (_channel s) = EvMessage <$> pings ->
   (change_cards timeout s).1
     = match timeout with Some _ => Raise MessageTimeout | None => Block end /\
   (send_fails (_channel s) = false ->
    (bet min_bet max_bet opening timeout s).1
      = match timeout with Some _ => Raise MessageTimeout | None => Block end)).
Proof.
  intros Hp. split_and!.
  - intros Hin. split; [|intros Hsend; rewrite bet_start by done].
    + by rewrite change_cards_start, (await_reply_after _ _ _ _ Hin Hp).
    + by rewrite (await_reply_after _ _ pings (EvTimeout :: rest)).
  - intros Hin. split; [|intros Hsend; rewrite bet_start by done].
    + by rewrite change_cards_start, (await_reply_after _ _ _ _ Hin Hp).
    + by rewrite (await_reply_after _ _ pings (EvError :: rest)).
  - intros Hin. rewrite <- (right_id_L [] (++) (EvMessage <$> pings)) in Hin.
    split; [|intros Hsend; rewrite bet_start by done].
    + rewrite change_cards_start, (await_reply_after _ _ _ _ Hin Hp). by destruct timeout.
    + rewrite (await_reply_after _ _ pings []); [|done..]. by destruct timeout.
Qed.

(** X13: the first message that is no keep-alive ends the operation, accepted
    or refused: what the channel holds after it is left there, in order, for
    the next operation. *)
Theorem later_messages_left timeout min_bet max_bet opening s pings reply rest :
  inbox (_channel s) = (EvMessage <$> pings) ++ EvMessage reply :: rest ->
  Forall is_ping pings ->
  ~ is_ping reply ->
  inbox (_channel (change_cards timeout s).2) = rest /\
  (send_fails (_channel s) = false ->
   inbox (_channel (bet min_bet max_bet opening timeout s).2) = rest).
Proof.
  intros Hin Hp Hreply.
  assert (drop (S (length pings)) (inbox (_channel s)) = rest) as Hrest.
  { rewrite Hin, <- (length_fmap EvMessage pings).
    change (S (length (EvMessage <$> pings))) with (1 + length (EvMessage <$> pings)).
    rewrite Nat.add_comm, <- drop_drop, drop_app_length. done. }
  split.
  - rewrite change_cards_start, (await_reply_after _ _ _ _ Hin Hp).
    destruct (reply !! "msg_id") as [id|] eqn:Hid; [|done].
    rewrite (not_ping_id _ _ Hreply Hid).
    destruct (validate_msg_id reply "change-cards") as [[]|]; [|done].
    by destruct (reply !! "cards").
  - intros Hsend. rewrite bet_start by done.
    rewrite (await_reply_after _ _ pings (EvMessage reply :: rest)); [|done..].
    destruct (reply !! "msg_id") as [id|] eqn:Hid; [|done].
    rewrite (not_ping_id _ _ Hreply Hid).
    destruct (validate_msg_id reply "bet") as [[]|]; [|done].
    destruct (num_eqb _ _); [done|]. by destruct (reply !! "bet").
Qed.

(** ** The discard exchange: what it refuses and what it returns *)

Lemma set_err raw e : Py.set raw = Err e -> e = TypeError.
Proof.
  unfold Py.set. destruct (Py.iter raw) as [l|e'] eqn:Hiter; cbn [mbind res_bind].
  - apply set_from_err.
  - intros [= <-]. destruct raw; cbn [Py.iter] in Hiter; congruence.
Qed.

Lemma change_cards_try_err (hand : list Card) raw e :
  change_cards_try hand raw = Err e ->
  e = MessageFormatError "cards" "Maximum number of cards exceeded" \/
  e = MessageFormatError "cards" "Invalid list of cards".
Proof.
  unfold change_cards_try, try_except.
  destruct (Py.set raw) as [ks|e1] eqn:Hset; cbn [mbind res_bind];
    [|rewrite (set_err _ _ Hset); intros [= <-]; by right].
  destruct (Py.sorted ks) as [keys|e2] eqn:Hsorted; cbn [mbind res_bind];
    [|rewrite (sorted_err _ _ Hsorted); intros [= <-]; by right].
  destruct (4 <? length keys); [intros [= <-]; by left|].
  destruct (Py.comprehension _ keys) as [discards|e3] eqn:Hget; cbn [mbind res_bind]; [done|].
  apply comprehension_err in Hget as (k & _ & Hget).
  destruct (getitem_err _ _ _ Hget) as [-> | ->]; intros [= <-]; by right.
Qed.

(** X14: nothing but MessageFormatError, MessageTimeout and ChannelError
    comes out of [change_cards]: no TypeError and no IndexError of the
    resolution of the indexes escapes, whatever the [cards] field holds; a
    refused [cards] field is reported on "cards". *)
Theorem change_cards_raises_only timeout s e :
  (change_cards timeout s).1 = Raise e ->
  e = MessageTimeout \/ e = ChannelError \/
  (exists desc, e = MessageFormatError "msg_id" desc) \/
  e = MessageFormatError "cards" "Attribute is missing" \/
  e = MessageFormatError "cards" "Maximum number of cards exceeded" \/
  e = MessageFormatError "cards" "Invalid list of cards".
Proof.
  rewrite change_cards_start.
  destruct (await_reply timeout s) as [[m|e0|] s1] eqn:Hloop; cbn [fst]; [| |done].
  - destruct (validate_msg_id m "change-cards") as [[]|e1] eqn:Hval; cbn [fst].
    + destruct (m !! "cards") as [raw|]; cbn [fst]; [|intros [= <-]; auto 6].
      destruct (change_cards_try (_cards s1) raw) as [r|e2] eqn:Htry; [done|].
      intros [= <-]. destruct (change_cards_try_err _ _ _ Htry) as [-> | ->]; auto 6.
    + intros [= <-]. destruct (validate_err _ _ _ Hval) as [desc ->]. eauto 6.
  - intros [= <-]. pose proof (await_reply_raise timeout s e0) as Hkind.
    rewrite Hloop in Hkind. destruct (Hkind eq_refl) as [->|[->| ->]]; eauto 6.
Qed.

(** X15: a "change-cards" reply without a [cards] field is refused with
    MessageFormatError, attribute "cards", "Attribute is missing"; a [cards]
    field that cannot be made a set and sorted (null, a boolean or a number,
    which cannot be iterated; an element that is a list or an object, which
    cannot be hashed; numbers among strings, which cannot be ordered) is
    refused with "Invalid list of cards". *)
Theorem change_cards_malformed_cards timeout s pings reply rest :
  inbox (_channel s) = (EvMessage <$> pings) ++ EvMessage reply :: rest ->
  Forall is_ping pings ->
  reply !! "msg_id" = Some (VStr "change-cards") ->
  (reply !! "cards" = None ->
   (change_cards timeout s).1 = Raise (MessageFormatError "cards" "Attribute is missing")) /\
  (forall raw e,
     reply !! "cards" = Some raw ->
     (keys ← Py.set raw; Py.sorted keys) = Err e ->
     (change_cards timeout s).1 = Raise (MessageFormatError "cards" "Invalid list of cards")).
Proof.
  intros Hin Hp Hid. split.
  - intros Hraw. rewrite change_cards_start.
    rewrite (await_reply_after_pings _ _ _ _ _ _ Hin Hp Hid) by done.
    unfold validate_msg_id. rewrite Hid, (proj2 (eqb_str _ _) eq_refl). by rewrite Hraw.
  - intros raw e Hraw Hnorm.
    rewrite (change_cards_run _ _ _ _ _ _ Hin Hp Hid Hraw). cbn [fst].
    unfold change_cards_try, try_except.
    destruct (Py.set raw) as [ks|e1] eqn:Hset; cbn [mbind res_bind] in *;
      [|by rewrite (set_err _ _ Hset)].
    rewrite Hnorm. cbn [mbind res_bind]. by rewrite (sorted_err _ _ Hnorm).
Qed.

(** X16: an empty selection is accepted on any hand: a [cards] field with
    nothing to iterate (the empty list, and the empty string and the empty
    object as well) returns no index and no card. *)
Theorem change_cards_empty_selection timeout s pings reply rest raw :
  inbox (_channel s) = (EvMessage <$> pings) ++ EvMessage reply :: rest ->
  Forall is_ping pings ->
  reply !! "msg_id" = Some (VStr "change-cards") ->
  reply !! "cards" = Some raw ->
  Py.iter raw = Ok [] ->
  change_cards timeout s = (Ret ([], []), received (S (length pings)) timeout s).
Proof.
  intros Hin Hp Hid Hraw Hiter.
  rewrite (change_cards_run _ _ _ _ _ _ Hin Hp Hid Hraw).
  unfold change_cards_try, try_except, Py.set. by rewrite Hiter.
Qed.

Lemma getitem_elem (hand : list Card) k c : Py.getitem hand k = Ok c -> c ∈ hand.
Proof.
  intros (z & _ & _ & Hc)%getitem_ok. by eapply list_elem_of_lookup_2.
Qed.

(** X17: what [change_cards] returns is taken from the hand and left in it:
    there are as many cards as indexes, every card returned is a card of the
    hand, and the hand after the exchange is the hand before it (replacing
    the cards is the caller's work).  With no card in hand, nothing but the
    empty selection is returned. *)
Theorem change_cards_returns_from_hand timeout s keys discards s' :
  change_cards timeout s = (Ret (keys, discards), s') ->
  length discards = length keys /\
  (forall c, c ∈ discards -> c ∈ _cards s) /\
  _cards s' = _cards s /\
  (_cards s = [] -> keys = [] /\ discards = []).
Proof.
  intros Hrun.
  assert (_cards s' = _cards s) as Hhand.
  { destruct (change_cards_received timeout s) as (k & _ & Hk).
    rewrite Hrun in Hk. cbn [snd] in Hk. by subst s'. }
  apply change_cards_inv in Hrun as (m & raw & ks & _ & _ & _ & _ & _ & Hget).
  apply comprehension_ok in Hget. split_and!; [|  |done|].
  - symmetry. by eapply Forall2_length.
  - intros c Hc. apply list_elem_of_lookup in Hc as [i Hi].
    destruct (Forall2_lookup_r _ _ _ _ _ Hget Hi) as (k & _ & Hk).
    by eapply getitem_elem.
  - intros Hempty. rewrite Hempty in Hget.
    destruct Hget as [|k c keys' discards' Hk _]; [done|].
    by apply getitem_elem, elem_of_nil in Hk.
Qed.

(** ** The betting turn: what it refuses and what it returns *)

Lemma num_compare_nan a b :
  num_compare a b = None <-> num_x a = XNan \/ num_x b = XNan.
Proof.
  unfold num_compare. destruct (num_x a), (num_x b); cbn [x_compare];
    (split; [try done; by auto|try done; by intros [?|?]]).
Qed.

Lemma num_not_ltb_leb a b :
  num_compare a b <> None -> num_ltb a b = false -> num_leb b a = true.
Proof.
  unfold num_ltb, num_leb. rewrite (num_compare_antisym a b).
  by destruct (num_compare a b) as [[]|].
Qed.

Lemma num_not_gtb_leb a b :
  num_compare a b <> None -> num_gtb a b = false -> num_leb a b = true.
Proof. unfold num_gtb, num_leb. by destruct (num_compare a b) as [[]|]. Qed.

Lemma bet_try_ok min_bet max_bet reply raw r :
  bet_try min_bet max_bet reply raw = Ok r ->
  exists v, Py.float float_of_string raw = Ok v /\ r = PFloat v /\
    (num_eqb (PFloat v) (PFloat minus_one) = true \/
     num_ltb (PFloat v) min_bet = false /\ num_gtb (PFloat v) max_bet = false).
Proof.
  destruct (Py.float float_of_string raw) as [v|e] eqn:Hv.
  - rewrite (bet_try_parsed _ _ _ _ _ Hv).
    destruct (num_eqb _ _) eqn:Hfold; [intros [= <-]; eauto|].
    destruct (num_ltb _ _) eqn:Hlt; [done|].
    destruct (num_gtb _ _) eqn:Hgt; [done|]. intros [= <-]. eauto 6.
  - by rewrite (bet_try_unparsed _ _ _ _ _ Hv).
Qed.

(** X18: a "bet" reply without a [bet] field is refused with
    MessageFormatError, attribute "bet", "Attribute is missing", unless
    [max_bet] is [-1]. *)
Theorem bet_missing_bet min_bet max_bet opening timeout s pings reply rest :
  send_fails (_channel s) = false ->
  inbox (_channel s) = (EvMessage <$> pings) ++ EvMessage reply :: rest ->
  Forall is_ping pings ->
  reply !! "msg_id" = Some (VStr "bet") ->
  num_eqb max_bet (PInt (-1)) = false ->
  reply !! "bet" = None ->
  (bet min_bet max_bet opening timeout s).1
    = Raise (MessageFormatError "bet" "Attribute is missing").
Proof.
  intros Hsend Hin Hp Hid Hmax Hraw.
  by rewrite (bet_run _ _ _ _ _ _ _ _ Hsend Hin Hp Hid), Hmax, Hraw.
Qed.

(** X19: what [bet] returns: the integer [-1] when [max_bet] is [-1], and
    otherwise a float that is a fold ([-1.0]) or is neither below [min_bet]
    nor above [max_bet]; for a value that can be compared with the bounds
    this is [min_bet <= v <= max_bet]. *)
Theorem bet_returns_within min_bet max_bet opening timeout s r :
  (bet min_bet max_bet opening timeout s).1 = Ret r ->
  (num_eqb max_bet (PInt (-1)) = true /\ r = PInt (-1)) \/
  (num_eqb max_bet (PInt (-1)) = false /\
   exists v, r = PFloat v /\
     (num_eqb (PFloat v) (PFloat minus_one) = true \/
      (num_ltb (PFloat v) min_bet = false /\ num_gtb (PFloat v) max_bet = false /\
       (num_compare (PFloat v) min_bet <> None -> num_leb min_bet (PFloat v) = true) /\
       (num_compare (PFloat v) max_bet <> None -> num_leb (PFloat v) max_bet = true)))).
Proof.
  destruct (send_fails (_channel s)) eqn:Hsend.
  { unfold bet, mbind at 1, M_bind. by rewrite send_message_fails. }
  rewrite bet_start by done.
  destruct (await_reply _ _) as [[m| |] s1]; [|done..].
  destruct (validate_msg_id m "bet") as [[]|]; [|done].
  destruct (num_eqb max_bet (PInt (-1))) eqn:Hmax; [intros [= <-]; by left|].
  destruct (m !! "bet") as [raw|]; [|done]. cbn [fst].
  destruct (bet_try min_bet max_bet m raw) as [r'|] eqn:Htry; [|done].
  intros [= <-]. right. split; [done|].
  apply bet_try_ok in Htry as (v & _ & -> & [Hfold|[Hlt Hgt]]); exists v; split; try done.
  - by left.
  - right. split_and!; try done.
    + intros Hcmp. by apply num_not_ltb_leb.
    + intros Hcmp. by apply num_not_gtb_leb.
Qed.

(** X20: a bet that is not a number in the float sense (NaN, which [float]
    reads from "nan" and JSON decoding from NaN) passes the range check,
    every comparison with it being false, and is returned as the bet,
    whatever the bounds. *)
Theorem bet_nan_accepted min_bet max_bet opening timeout s pings reply rest raw v :
  send_fails (_channel s) = false ->
  inbox (_channel s) = (EvMessage <$> pings) ++ EvMessage reply :: rest ->
  Forall is_ping pings ->
  reply !! "msg_id" = Some (VStr "bet") ->
  num_eqb max_bet (PInt (-1)) = false ->
  reply !! "bet" = Some raw ->
  Py.float float_of_string raw = Ok v ->
  is_nan v ->
  (bet min_bet max_bet opening timeout s).1 = Ret (PFloat v).
Proof.
  intros Hsend Hin Hp Hid Hmax Hraw Hv Hnan.
  rewrite (bet_run _ _ _ _ _ _ _ _ Hsend Hin Hp Hid), Hmax, Hraw. cbn [fst].
  rewrite (bet_try_parsed _ _ _ _ _ Hv).
  assert (forall b, num_compare (PFloat v) b = None) as Hcmp.
  { intros b. apply num_compare_nan. by left. }
  unfold num_eqb, num_ltb, num_gtb. by rewrite !Hcmp.
Qed.

(** ** What the request says does not decide the turn *)

Lemma with_outbox_sent m s : sent m s = with_outbox (outbox (_channel s) ++ [m]) s.
Proof. done. Qed.

Lemma outbox_frame_bind {A B} (m : M A) (f : A -> M B) :
  outbox_frame m -> (forall a, outbox_frame (f a)) -> outbox_frame (m ≫= f).
Proof.
  intros Hm Hf out s. unfold mbind, M_bind. rewrite Hm.
  destruct (m s) as [[a| |] s1]; [apply Hf|done..].
Qed.

Lemma outbox_frame_pure {A} (r : outcome A) : outbox_frame (fun s => (r, s)).
Proof. by intros out s. Qed.

Lemma outbox_frame_recv t : outbox_frame (recv_message t).
Proof.
  intros out [? ? ? ? ? [inb ? ? ? dl ?] ? ?].
  unfold recv_message, on_channel, Channel.recv_message, with_outbox, with_channel. simpl.
  destruct inb as [|[m| |] rest]; [by destruct t|done..].
Qed.

Lemma outbox_frame_await_turns t turns : outbox_frame (await_reply_turns turns t).
Proof.
  induction turns as [|turns IH]; cbn [await_reply_turns]; [apply outbox_frame_pure|].
  apply outbox_frame_bind; [apply outbox_frame_recv|]. intros m.
  destruct (m !! "msg_id") as [id|]; [|apply outbox_frame_pure].
  destruct (negb _); [apply outbox_frame_pure|apply IH].
Qed.

Lemma outbox_frame_await t : outbox_frame (await_reply t).
Proof. intros out s. unfold await_reply. apply outbox_frame_await_turns. Qed.

(** X21: the [opening] flag goes into the request and nowhere else: the
    turn ends with the same value or the same error whether it is set or
    not.  The adapter itself asks nothing of an opening bet. *)
Theorem bet_opening_not_enforced min_bet max_bet timeout s :
  (bet min_bet max_bet true timeout s).1 = (bet min_bet max_bet false timeout s).1.
Proof.
  destruct (send_fails (_channel s)) eqn:Hsend.
  { unfold bet, mbind at 1 4, M_bind. by rewrite !send_message_fails. }
  rewrite !bet_start by done. rewrite !with_outbox_sent, !outbox_frame_await.
  destruct (await_reply timeout s) as [[m| |] s1]; [|done..].
  destruct (validate_msg_id m "bet") as [[]|]; [|done].
  destruct (num_eqb _ _); [done|]. by destruct (m !! "bet").
Qed.

(** X22: a deadline of 0 counts as none when the request is written, but not
    when the reply is awaited: the request says "timeout": null, the same
    request as with no deadline, and yet on a silent channel the turn ends
    with MessageTimeout, where with no deadline it waits for ever. *)
Theorem bet_zero_deadline min_bet max_bet opening s :
  send_fails (_channel s) = false ->
  inbox (_channel s) = [] ->
  bet_request min_bet max_bet opening (Some 0%Z)
    = bet_request min_bet max_bet opening None /\
  bet_request min_bet max_bet opening None !! "timeout" = Some VNone /\
  (bet min_bet max_bet opening (Some 0%Z) s).1 = Raise MessageTimeout /\
  (bet min_bet max_bet opening None s).1 = Block.
Proof.
  intros Hsend Hin. split_and!; [done|done|..];
    rewrite bet_start by done; rewrite await_reply_head;
    by replace (inbox (_channel (sent _ s))) with (@nil event).
Qed.

End Adapter.

(** * The properties on concrete exchanges *)

Import Demo.

(** A participant holding [hand] whose channel will deliver [evs]. *)
Abbreviation dealt hand evs :=
  ((Player_set_cards (Card:=card) (Score:=Z) hand 0%Z
      (init (channel evs) (VInt 1) (VStr "ann") (VInt 100))).2).

Abbreviation ping_message := (msg [("msg_id", VStr "ping")]).

Abbreviation demo_bet := (bet (Card:=card) (Score:=Z) float_of_string format strftime).

Lemma set_cards_allowed_to_open_witness :
  cmp_ranking (Score:=Z) (fun a b => b - a)%Z (fun b a => a <= b)%Z /\
  exists message s',
    set_cards card_dto score_dto (fun a b => b - a)%Z [A; B; C; D; E] 3%Z 5%Z (dealt [] [])
      = (Ret tt, s') /\
    _allowed_to_open s' = Some false /\
    outbox (_channel s') = [message] /\
    message !! "allowed_to_open" = Some (VBool false).
Proof.
  assert (cmp_ranking (Score:=Z) (fun a b => b - a)%Z (fun b a => a <= b)%Z) as Hcmp.
  { intros a b. lia. }
  split; [exact Hcmp|].
  destruct (set_cards_allowed_to_open card_dto score_dto (fun a b => b - a)%Z
              (fun b a => a <= b)%Z [A; B; C; D; E] 3%Z 5%Z (dealt [] []) Hcmp eq_refl)
    as (allowed & message & s' & Hrun & Hallowed & _ & _ & _ & _ & Hflag & Hout & _ & _ & _ & Hsent).
  exists message, s'. rewrite Hallowed in Hflag, Hsent. by split_and!.
Defined.

Lemma bet_unparsable_escapes_witness :
  float_of_string "abc" = None /\
  (demo_bet (PFloat (binary64_of_Z 0)) (PFloat (binary64_of_Z 100)) false None
     (dealt [] [EvMessage (msg [("msg_id", VStr "bet"); ("bet", VStr "abc")])])).1
  = Raise (AttributeError "bet").
Proof.
  split; [reflexivity|].
  apply (bet_unparsable_escapes float_of_string format strftime
           (PFloat (binary64_of_Z 0)) (PFloat (binary64_of_Z 100)) false None
           (dealt [] [EvMessage (msg [("msg_id", VStr "bet"); ("bet", VStr "abc")])])
           [] (msg [("msg_id", VStr "bet"); ("bet", VStr "abc")]) [] (VStr "abc") ValueError);
    solve [reflexivity | constructor].
Defined.

Lemma bet_not_required_witness :
  (demo_bet (PInt 10) (PInt (-1)) true None
     (dealt [] [EvMessage ping_message; EvMessage (msg [("msg_id", VStr "bet")])])).1
  = Ret (PInt (-1)).
Proof.
  rewrite (bet_not_required float_of_string format strftime (PInt 10) (PInt (-1)) true None
             (dealt [] [EvMessage ping_message; EvMessage (msg [("msg_id", VStr "bet")])])
             [ping_message] (msg [("msg_id", VStr "bet")]) []);
    solve [reflexivity | repeat constructor].
Defined.

(** With [max_bet == -1], a reply that is no "bet" message, or that carries
    no [msg_id], is refused all the same. *)
Lemma bet_not_required_counterexample :
  (exists desc,
     (demo_bet (PInt 10) (PInt (-1)) true None
        (dealt [] [EvMessage (msg [("msg_id", VStr "change-cards"); ("cards", VList [])])])).1
     = Raise (MessageFormatError "msg_id" desc)) /\
  (demo_bet (PInt 10) (PInt (-1)) true None
     (dealt [] [EvMessage (msg [("bet", VStr "20")])])).1
  = Raise (MessageFormatError "msg_id" "Attribute missing").
Proof. split; [eexists|]; vm_compute; reflexivity. Qed.

Lemma change_cards_indexes_normalized_witness :
  change_cards None
    (dealt [A; B; C; D; E]
       [EvMessage (msg [("msg_id", VStr "change-cards");
                        ("cards", VList [VInt 3; VInt (-1); VInt 3; VInt 0])])])
  = (Ret ([VInt (-1); VInt 0; VInt 3], [E; A; D]),
     received 1 None
       (dealt [A; B; C; D; E]
          [EvMessage (msg [("msg_id", VStr "change-cards");
                           ("cards", VList [VInt 3; VInt (-1); VInt 3; VInt 0])])])) /\
  exists zs,
    Forall2 (fun k z => as_index k = Some z) [VInt (-1); VInt 0; VInt 3] zs /\
    StronglySorted Z.lt zs /\ NoDup zs.
Proof.
  assert (change_cards None
            (dealt [A; B; C; D; E]
               [EvMessage (msg [("msg_id", VStr "change-cards");
                                ("cards", VList [VInt 3; VInt (-1); VInt 3; VInt 0])])])
          = (Ret ([VInt (-1); VInt 0; VInt 3], [E; A; D]),
             received 1 None
               (dealt [A; B; C; D; E]
                  [EvMessage (msg [("msg_id", VStr "change-cards");
                                   ("cards", VList [VInt 3; VInt (-1); VInt 3; VInt 0])])])))
    as Hrun by (vm_compute; reflexivity).
  split; [exact Hrun|].
  destruct (proj1 (change_cards_indexes_normalized (Card:=card) (Score:=Z)) _ _ _ _ _ Hrun)
    as (_ & _ & _ & zs & _ & _ & _ & Hzs & Hsorted & Hnodup & _).
  by exists zs.
Defined.



Lemma change_cards_negative_index_witness :
  exists keys discards i,
    change_cards None
      (dealt [A; B; C; D; E]
         [EvMessage ping_message;
          EvMessage (msg [("msg_id", VStr "change-cards");
                          ("cards", VList (VInt <$> [1; -1]%Z))])])
    = (Ret (keys, discards),
       received 2 None
         (dealt [A; B; C; D; E]
            [EvMessage ping_message;
             EvMessage (msg [("msg_id", VStr "change-cards");
                             ("cards", VList (VInt <$> [1; -1]%Z))])])) /\
    keys !! i = Some (VInt (-1)) /\ discards !! i = Some E.
Proof.
  destruct (change_cards_negative_index None
              (dealt [A; B; C; D; E]
                 [EvMessage ping_message;
                  EvMessage (msg [("msg_id", VStr "change-cards");
                                  ("cards", VList (VInt <$> [1; -1]%Z))])])
              [ping_message]
              (msg [("msg_id", VStr "change-cards"); ("cards", VList (VInt <$> [1; -1]%Z))])
              [] [1; -1]%Z (-1)%Z)
    as (keys & discards & i & c & Hrun & Hkey & Hcard & _ & Hlast).
  - reflexivity.
  - repeat constructor.
  - reflexivity.
  - reflexivity.
  - repeat constructor; simpl; lia.
  - vm_compute. lia.
  - apply list_elem_of_further, list_elem_of_here.
  - lia.
  - exists keys, discards, i. split_and!; [exact Hrun|exact Hkey|].
    rewrite Hcard. symmetry. exact (Hlast eq_refl).
Defined.

Lemma bet_within_bounds_witness :
  (demo_bet (PInt 10) (PInt 50) false None
     (dealt [] [EvMessage (msg [("msg_id", VStr "bet"); ("bet", VStr "30")])])).1
  = Ret (PFloat (binary64_of_Z 30)) /\
  (demo_bet (PInt 10) (PInt 50) false None
     (dealt [] [EvMessage (msg [("msg_id", VStr "bet"); ("bet", VStr "5")])])).1
  = Raise (MessageFormatError "bet" "Bet out of range. min: 10 max: 50, actual: 5.0").
Proof.
  split.
  - apply (proj1 (bet_within_bounds float_of_string format strftime
                    (PInt 10) (PInt 50) false None
                    (dealt [] [EvMessage (msg [("msg_id", VStr "bet"); ("bet", VStr "30")])])
                    [] (msg [("msg_id", VStr "bet"); ("bet", VStr "30")]) []
                    (VStr "30") (binary64_of_Z 30)
                    eq_refl eq_refl (Forall_nil_2 _) eq_refl eq_refl eq_refl eq_refl));
      reflexivity.
  - rewrite (proj2 (bet_within_bounds float_of_string format strftime
                      (PInt 10) (PInt 50) false None
                      (dealt [] [EvMessage (msg [("msg_id", VStr "bet"); ("bet", VStr "5")])])
                      [] (msg [("msg_id", VStr "bet"); ("bet", VStr "5")]) []
                      (VStr "5") (binary64_of_Z 5)
                      eq_refl eq_refl (Forall_nil_2 _) eq_refl eq_refl eq_refl eq_refl)
                   (or_introl eq_refl) eq_refl).
    reflexivity.
Defined.

Lemma bet_fold_witness :
  num_ltb (PFloat minus_one) (PInt 10) = true /\
  (demo_bet (PInt 10) (PInt 50) false None
     (dealt [] [EvMessage (msg [("msg_id", VStr "bet"); ("bet", VStr "-1")])])).1
  = Ret (PFloat minus_one).
Proof.
  split; [reflexivity|].
  rewrite (bet_fold float_of_string format strftime (PInt 10) (PInt 50) false None
             (dealt [] [EvMessage (msg [("msg_id", VStr "bet"); ("bet", VStr "-1")])])
             [] (msg [("msg_id", VStr "bet"); ("bet", VStr "-1")]) []
             (VStr "-1") minus_one
             eq_refl eq_refl (Forall_nil_2 _) eq_refl eq_refl eq_refl eq_refl eq_refl).
  reflexivity.
Defined.

Lemma leading_pings_skipped_witness :
  Forall is_ping [ping_message; ping_message] /\
  (change_cards None
     (incoming (EvMessage <$> [ping_message; ping_message])
        (dealt [A; B; C; D; E]
           [EvMessage (msg [("msg_id", VStr "change-cards");
                            ("cards", VList [VInt 2; VInt 2; VInt 0])])]))).1
  = Ret ([VInt 0; VInt 2], [A; C]) /\
  (demo_bet (PInt 10) (PInt 50) false (Some 1700000000%Z)
     (incoming (EvMessage <$> [ping_message; ping_message])
        (dealt [] [EvMessage (msg [("msg_id", VStr "bet"); ("bet", VStr "30")])]))).1
  = Ret (PFloat (binary64_of_Z 30)).
Proof.
  assert (Forall is_ping [ping_message; ping_message]) as Hp.
  { repeat constructor. }
  split; [exact Hp|]. split.
  - destruct (leading_pings_skipped float_of_string format strftime None (PInt 10) (PInt 50)
                false [ping_message; ping_message]
                (dealt [A; B; C; D; E]
                   [EvMessage (msg [("msg_id", VStr "change-cards");
                                    ("cards", VList [VInt 2; VInt 2; VInt 0])])]) Hp)
      as (-> & _).
    reflexivity.
  - destruct (leading_pings_skipped float_of_string format strftime (Some 1700000000%Z)
                (PInt 10) (PInt 50) false [ping_message; ping_message]
                (dealt [] [EvMessage (msg [("msg_id", VStr "bet"); ("bet", VStr "30")])]) Hp)
      as (_ & -> & _).
    reflexivity.
Defined.

Lemma ping_pong_never_raises_witness :
  (ping true 1700000000
     (dealt [] [EvMessage (msg [("msg_id", VStr "pong")])])).1 = Ret false /\
  close_calls (_channel (ping true 1700000000
     (dealt [] [EvMessage (msg [("msg_id", VStr "pong")])])).2) = 1 /\
  (ping true 1700000000 (dealt [] [EvMessage ping_message])).1 = Ret true.
Proof.
  destruct (ping_pong_never_raises (Card:=card) (Score:=Z) 1700000000
              (dealt [] [EvMessage (msg [("msg_id", VStr "pong")])]))
    as (_ & Hfalse & _).
  destruct Hfalse as (Hret & Hclosed & _).
  { do 4 right. exists (msg [("msg_id", VStr "pong")]), []. split; [reflexivity|].
    intros Hping. vm_compute in Hping. discriminate Hping. }
  destruct (ping_pong_never_raises (Card:=card) (Score:=Z) 1700000000
              (dealt [] [EvMessage ping_message]))
    as (_ & _ & Htrue).
  destruct Htrue as (Hret' & _); [reflexivity| |].
  { exists ping_message, []. split; reflexivity. }
  split_and!; [exact Hret|exact Hclosed|exact Hret'].
Defined.

(** * The further properties on concrete exchanges *)

#[local] Existing Instance M_bind.

(** A participant whose transport refuses to send. *)
Abbreviation cut_off evs :=
  (init (Card:=card) (Score:=Z)
     {| inbox := evs; outbox := []; send_fails := true; close_fails := true;
        deadlines := []; close_calls := 0 |}
     (VInt 1) (VStr "ann") (VInt 100)).

Lemma ping_pong_takes_one_witness :
  inbox (_channel
    (ping true 1700000000
       (dealt [] [EvMessage (msg [("msg_id", VStr "bet"); ("bet", VStr "30")]);
                  EvMessage ping_message])).2)
  = [EvMessage ping_message].
Proof.
  destruct (ping_pong_takes_one (Card:=card) (Score:=Z) 1700000000
              (dealt [] [EvMessage (msg [("msg_id", VStr "bet"); ("bet", VStr "30")]);
                         EvMessage ping_message]))
    as (Hsent & _ & _).
  destruct (Hsent eq_refl) as (Hinbox & _). exact Hinbox.
Defined.

Lemma update_channel_then_ping_witness :
  (ping false 1700000000 (cut_off [])).1 = Ret false /\
  ((update_channel (channel []) ≫= fun _ => ping false 1700000000) (cut_off [])).1
  = Ret true.
Proof.
  split; [reflexivity|].
  destruct (update_channel_then_ping (Card:=card) (Score:=Z) (channel []) 1700000000
              (cut_off []) eq_refl) as (-> & _).
  reflexivity.
Defined.

Lemma set_cards_send_fails_witness :
  (set_cards card_dto score_dto (fun a b => b - a)%Z [A; B] 3%Z 5%Z (cut_off [])).1
    = Raise ChannelError /\
  _cards (set_cards card_dto score_dto (fun a b => b - a)%Z [A; B] 3%Z 5%Z (cut_off [])).2
    = [A; B].
Proof.
  destruct (set_cards_send_fails card_dto score_dto (fun a b => b - a)%Z [A; B] 3%Z 5%Z
              (cut_off []) eq_refl) as (Hraise & Hcards & _).
  by split.
Defined.

Lemma set_cards_then_change_cards_witness :
  ((set_cards card_dto score_dto (fun a b => b - a)%Z [D; E] 3%Z 5%Z
      ≫= fun _ => change_cards None)
     (dealt [A; B; C]
        [EvMessage (msg [("msg_id", VStr "change-cards"); ("cards", VList [VInt 0])])])).1
  = Ret ([VInt 0], [D]).
Proof.
  destruct (set_cards_then_change_cards card_dto score_dto (fun a b => b - a)%Z
              [D; E] 3%Z 5%Z None
              (dealt [A; B; C]
                 [EvMessage (msg [("msg_id", VStr "change-cards");
                                  ("cards", VList [VInt 0])])])
              [] (msg [("msg_id", VStr "change-cards"); ("cards", VList [VInt 0])]) []
              (VList [VInt 0]) eq_refl eq_refl (Forall_nil_2 _) eq_refl eq_refl)
    as (-> & _).
  reflexivity.
Defined.

Lemma dto_snapshot_witness :
  (dto score_dto true (dealt [A; B] [])).1
  = Ret (msg [("score", VInt 0); ("money", VInt 100); ("name", VStr "ann"); ("id", VInt 1)]).
Proof.
  destruct (dto_snapshot score_dto true (dealt [A; B] [])) as (_ & _ & Hscore & _).
  rewrite (Hscore 0%Z eq_refl). reflexivity.
Defined.

Lemma bet_sends_then_receives_witness :
  demo_bet (PInt 10) (PInt 50) false None
    (cut_off [EvMessage (msg [("msg_id", VStr "bet"); ("bet", VStr "30")])])
  = (Raise ChannelError,
     cut_off [EvMessage (msg [("msg_id", VStr "bet"); ("bet", VStr "30")])]).
Proof.
  apply (proj1 (bet_sends_then_receives float_of_string format strftime
                  (PInt 10) (PInt 50) false None
                  (cut_off [EvMessage (msg [("msg_id", VStr "bet"); ("bet", VStr "30")])]))).
  reflexivity.
Defined.

Lemma missing_msg_id_refused_witness :
  (change_cards None
     (dealt [A; B; C] [EvMessage ping_message; EvMessage (msg [("cards", VList [VInt 0])])])).1
  = Raise (MessageFormatError "msg_id" "Attribute missing").
Proof.
  assert (Forall is_ping [ping_message]) as Hp by (repeat constructor).
  apply (proj1 (missing_msg_id_refused float_of_string format strftime
                  None (PInt 10) (PInt 50) false
                  (dealt [A; B; C]
                     [EvMessage ping_message; EvMessage (msg [("cards", VList [VInt 0])])])
                  [ping_message] (msg [("cards", VList [VInt 0])]) []
                  eq_refl Hp eq_refl)).
Defined.

Lemma receive_failures_propagate_witness :
  (demo_bet (PInt 10) (PInt 50) false (Some 1700000000%Z)
     (dealt [] [EvMessage ping_message; EvTimeout])).1
  = Raise MessageTimeout.
Proof.
  assert (Forall is_ping [ping_message]) as Hp by (repeat constructor).
  destruct (receive_failures_propagate float_of_string format strftime
              (Some 1700000000%Z) (PInt 10) (PInt 50) false
              (dealt [] [EvMessage ping_message; EvTimeout]) [ping_message] [] Hp)
    as (Htimeout & _ & _).
  destruct (Htimeout eq_refl) as (_ & Hbet). exact (Hbet eq_refl).
Defined.

Lemma later_messages_left_witness :
  inbox (_channel
    (change_cards None
       (dealt [A; B; C]
          [EvMessage ping_message;
           EvMessage (msg [("msg_id", VStr "change-cards"); ("cards", VList [VInt 7])]);
           EvMessage (msg [("msg_id", VStr "bet"); ("bet", VStr "30")])])).2)
  = [EvMessage (msg [("msg_id", VStr "bet"); ("bet", VStr "30")])].
Proof.
  assert (Forall is_ping [ping_message]) as Hp by (repeat constructor).
  assert (~ is_ping (msg [("msg_id", VStr "change-cards"); ("cards", VList [VInt 7])]))
    as Hreply.
  { intros Hping. vm_compute in Hping. discriminate Hping. }
  apply (proj1 (later_messages_left float_of_string format strftime
                  None (PInt 10) (PInt 50) false
                  (dealt [A; B; C]
                     [EvMessage ping_message;
                      EvMessage (msg [("msg_id", VStr "change-cards");
                                      ("cards", VList [VInt 7])]);
                      EvMessage (msg [("msg_id", VStr "bet"); ("bet", VStr "30")])])
                  [ping_message]
                  (msg [("msg_id", VStr "change-cards"); ("cards", VList [VInt 7])])
                  [EvMessage (msg [("msg_id", VStr "bet"); ("bet", VStr "30")])]
                  eq_refl Hp Hreply)).
Defined.

Lemma change_cards_raises_only_witness :
  (change_cards None
     (dealt [A; B; C]
        [EvMessage (msg [("msg_id", VStr "change-cards"); ("cards", VList [VInt 7])])])).1
  = Raise (MessageFormatError "cards" "Invalid list of cards") /\
  (MessageFormatError "cards" "Invalid list of cards" = MessageTimeout \/
   MessageFormatError "cards" "Invalid list of cards" = ChannelError \/
   (exists desc, MessageFormatError "cards" "Invalid list of cards"
                 = MessageFormatError "msg_id" desc) \/
   MessageFormatError "cards" "Invalid list of cards"
     = MessageFormatError "cards" "Attribute is missing" \/
   MessageFormatError "cards" "Invalid list of cards"
     = MessageFormatError "cards" "Maximum number of cards exceeded" \/
   MessageFormatError "cards" "Invalid list of cards"
     = MessageFormatError "cards" "Invalid list of cards").
Proof.
  assert ((change_cards None
             (dealt [A; B; C]
                [EvMessage (msg [("msg_id", VStr "change-cards");
                                 ("cards", VList [VInt 7])])])).1
          = Raise (MessageFormatError "cards" "Invalid list of cards")) as Hrun
    by (vm_compute; reflexivity).
  split; [exact Hrun|].
  exact (change_cards_raises_only (Card:=card) (Score:=Z) None _ _ Hrun).
Defined.

Lemma change_cards_malformed_cards_witness :
  (change_cards None
     (dealt [A; B; C]
        [EvMessage (msg [("msg_id", VStr "change-cards"); ("cards", VNone)])])).1
  = Raise (MessageFormatError "cards" "Invalid list of cards") /\
  (change_cards None
     (dealt [A; B; C]
        [EvMessage (msg [("msg_id", VStr "change-cards");
                         ("cards", VList [VInt 1; VStr "a"])])])).1
  = Raise (MessageFormatError "cards" "Invalid list of cards").
Proof.
  split.
  - apply (proj2 (change_cards_malformed_cards (Card:=card) (Score:=Z) None
                    (dealt [A; B; C]
                       [EvMessage (msg [("msg_id", VStr "change-cards"); ("cards", VNone)])])
                    [] (msg [("msg_id", VStr "change-cards"); ("cards", VNone)]) []
                    eq_refl (Forall_nil_2 _) eq_refl)
             VNone TypeError eq_refl eq_refl).
  - apply (proj2 (change_cards_malformed_cards (Card:=card) (Score:=Z) None
                    (dealt [A; B; C]
                       [EvMessage (msg [("msg_id", VStr "change-cards");
                                        ("cards", VList [VInt 1; VStr "a"])])])
                    [] (msg [("msg_id", VStr "change-cards");
                             ("cards", VList [VInt 1; VStr "a"])]) []
                    eq_refl (Forall_nil_2 _) eq_refl)
             (VList [VInt 1; VStr "a"]) TypeError eq_refl eq_refl).
Defined.

Lemma change_cards_empty_selection_witness :
  (change_cards None
     (dealt [A; B; C]
        [EvMessage (msg [("msg_id", VStr "change-cards"); ("cards", VStr "")])])).1
  = Ret ([], []).
Proof.
  rewrite (change_cards_empty_selection (Card:=card) (Score:=Z) None
             (dealt [A; B; C]
                [EvMessage (msg [("msg_id", VStr "change-cards"); ("cards", VStr "")])])
             [] (msg [("msg_id", VStr "change-cards"); ("cards", VStr "")]) []
             (VStr "") eq_refl (Forall_nil_2 _) eq_refl eq_refl eq_refl).
  reflexivity.
Defined.

Lemma change_cards_returns_from_hand_witness :
  change_cards None
    (dealt [A; B; C]
       [EvMessage (msg [("msg_id", VStr "change-cards");
                        ("cards", VList [VInt 2; VInt (-1)])])])
  = (Ret ([VInt (-1); VInt 2], [C; C]),
     received 1 None
       (dealt [A; B; C]
          [EvMessage (msg [("msg_id", VStr "change-cards");
                           ("cards", VList [VInt 2; VInt (-1)])])])) /\
  forall c, c ∈ [C; C] -> c ∈ [A; B; C].
Proof.
  assert (change_cards None
            (dealt [A; B; C]
               [EvMessage (msg [("msg_id", VStr "change-cards");
                                ("cards", VList [VInt 2; VInt (-1)])])])
          = (Ret ([VInt (-1); VInt 2], [C; C]),
             received 1 None
               (dealt [A; B; C]
                  [EvMessage (msg [("msg_id", VStr "change-cards");
                                   ("cards", VList [VInt 2; VInt (-1)])])])))
    as Hrun by (vm_compute; reflexivity).
  split; [exact Hrun|].
  exact (proj1 (proj2 (change_cards_returns_from_hand (Card:=card) (Score:=Z) _ _ _ _ _ Hrun))).
Defined.

Lemma bet_missing_bet_witness :
  (demo_bet (PInt 10) (PInt 50) false None
     (dealt [] [EvMessage (msg [("msg_id", VStr "bet"); ("amount", VStr "30")])])).1
  = Raise (MessageFormatError "bet" "Attribute is missing").
Proof.
  apply (bet_missing_bet float_of_string format strftime (PInt 10) (PInt 50) false None
           (dealt [] [EvMessage (msg [("msg_id", VStr "bet"); ("amount", VStr "30")])])
           [] (msg [("msg_id", VStr "bet"); ("amount", VStr "30")]) []
           eq_refl eq_refl (Forall_nil_2 _) eq_refl eq_refl eq_refl).
Defined.

Lemma bet_returns_within_witness :
  (demo_bet (PInt 10) (PInt 50) false None
     (dealt [] [EvMessage (msg [("msg_id", VStr "bet"); ("bet", VInt 30)])])).1
  = Ret (PFloat (binary64_of_Z 30)) /\
  exists v, PFloat (binary64_of_Z 30) = PFloat v /\
    num_leb (PInt 10) (PFloat v) = true /\ num_leb (PFloat v) (PInt 50) = true.
Proof.
  assert ((demo_bet (PInt 10) (PInt 50) false None
             (dealt [] [EvMessage (msg [("msg_id", VStr "bet"); ("bet", VInt 30)])])).1
          = Ret (PFloat (binary64_of_Z 30))) as Hrun by (vm_compute; reflexivity).
  split; [exact Hrun|].
  destruct (bet_returns_within float_of_string format strftime _ _ _ _ _ _ Hrun)
    as [[Hmax _]|(_ & v & Hv & [Hfold|(_ & _ & Hmin & Hle)])].
  - discriminate Hmax.
  - injection Hv as <-. discriminate Hfold.
  - exists v. split; [exact Hv|]. injection Hv as <-.
    split; [apply Hmin|apply Hle]; discriminate.
Defined.

Lemma bet_nan_accepted_witness :
  is_nan S754_nan /\
  (demo_bet (PInt 10) (PInt 50) false None
     (dealt [] [EvMessage (msg [("msg_id", VStr "bet"); ("bet", VFloat S754_nan)])])).1
  = Ret (PFloat S754_nan).
Proof.
  split; [reflexivity|].
  apply (bet_nan_accepted float_of_string format strftime (PInt 10) (PInt 50) false None
           (dealt [] [EvMessage (msg [("msg_id", VStr "bet"); ("bet", VFloat S754_nan)])])
           [] (msg [("msg_id", VStr "bet"); ("bet", VFloat S754_nan)]) []
           (VFloat S754_nan) S754_nan
           eq_refl eq_refl (Forall_nil_2 _) eq_refl eq_refl eq_refl eq_refl eq_refl).
Defined.

Lemma bet_zero_deadline_witness :
  (demo_bet (PInt 10) (PInt 50) false (Some 0%Z) (dealt [] [])).1 = Raise MessageTimeout /\
  (demo_bet (PInt 10) (PInt 50) false None (dealt [] [])).1 = Block.
Proof.
  destruct (bet_zero_deadline (Card:=card) (Score:=Z) float_of_string format strftime
              (PInt 10) (PInt 50) false (dealt [] []) eq_refl eq_refl)
    as (_ & _ & Hzero & Hnone).
  by split.
Defined.
